(** * EduGen front-end: student portal, assignment list and API client

    A shallow embedding of the TypeScript sources
      - [frontend/pages/AssignmentsList.tsx]  (the [AssignmentsList] filter
        and the [StudentPortal] controller that follows it in that file),
      - [frontend/services/geminiService.ts]  (the API client),
      - [frontend/services/authService.ts]    (the session store),
    together with the properties the specification states about them.

    Conventions of the embedding
      - a JavaScript string is a [string]; library functions whose Unicode
        behaviour has no counterpart here ([toLowerCase], [trim],
        [JSON.parse]) are section variables;
      - a plain JavaScript object used as a string-keyed map is the list of
        its own properties in enumeration order ([JsObject]);
      - React state is a record; a handler reads the values captured by its
        closure (the render snapshot) and queues updates on the state;
      - [alert], [console.error] and HTTP requests are recorded in a trace;
      - an [async] function is a computation that returns or throws. *)

From Stdlib Require Import Ascii NArith ZArith.
From stdpp Require Import base tactics option list strings gmap pretty sorting.

Local Open Scope stdpp_scope.
Local Open Scope N_scope.
#[local] Set Warnings "-register-all,-clear-no-such-hyp".

(** ** Characters and strings *)

Definition char_nl : ascii := "010"%char.
Definition char_dquote : ascii := "034"%char.

(** The separator [\n\n] of [join] in [handleSubmit]. *)
Definition blank_line : string := String char_nl (String char_nl "").

Definition is_digit (c : ascii) : bool :=
  (48 <=? N_of_ascii c) && (N_of_ascii c <=? 57).

Fixpoint digits_value (s : string) (acc : N) : option N :=
  match s with
  | EmptyString => Some acc
  | String c r =>
      if is_digit c then digits_value r (acc * 10 + (N_of_ascii c - 48))
      else None
  end.

(** [array_index k] is [Some n] when the property name [k] is an array
    index in the sense of ECMAScript: the canonical decimal spelling of an
    integer [n] with [0 <= n < 2^32 - 1]. *)
Definition array_index (k : string) : option N :=
  match k with
  | EmptyString => None
  | String c r =>
      if bool_decide (c = "0"%char) && negb (bool_decide (r = "")) then None
      else
        match digits_value k 0 with
        | Some n => if n <? 2 ^ 32 - 1 then Some n else None
        | None => None
        end
  end.

(** ** Plain objects used as maps

    [Record<string, string>]: the own enumerable properties of an ordinary
    object, listed in the order [Object.keys] / [Object.entries] / spread
    enumerate them: array-index names first, by ascending numeric value,
    then the other names in order of creation. *)

Abbreviation JsObject := (list (string * string)).

Definition obj_empty : JsObject := [].

Definition obj_keys (o : JsObject) : list string := o.*1.

Definition obj_entries (o : JsObject) : list (string * string) := o.

Fixpoint obj_get (o : JsObject) (k : string) : option string :=
  match o with
  | [] => None
  | (k', v) :: r => if decide (k' = k) then Some v else obj_get r k
  end.

Definition obj_has (o : JsObject) (k : string) : bool :=
  bool_decide (k ∈ obj_keys o).

(** [key_before k k']: a newly created property [k] is enumerated before
    the existing property [k']. *)
Definition key_before (k k' : string) : bool :=
  match array_index k, array_index k' with
  | Some n, Some n' => n <? n'
  | Some _, None => true
  | None, _ => false
  end.

(** Creation of a property that the object does not have yet. *)
Fixpoint obj_place (k v : string) (o : JsObject) : JsObject :=
  match o with
  | [] => [(k, v)]
  | (k', v') :: r =>
      if key_before k k' then (k, v) :: o else (k', v') :: obj_place k v r
  end.

(** Overwriting the value of an existing property keeps its position. *)
Fixpoint obj_update (k v : string) (o : JsObject) : JsObject :=
  match o with
  | [] => []
  | (k', v') :: r =>
      if decide (k' = k) then (k', v) :: r else (k', v') :: obj_update k v r
  end.

(** [CreateDataProperty]: what a computed property [{ [k]: v }] of an
    object literal and the spread [{ ...src }] do for each property. It
    defines an own property whatever the name, [__proto__] included (only
    the non-computed form [{ __proto__: v }] sets the prototype). *)
Definition obj_define (k v : string) (o : JsObject) : JsObject :=
  if obj_has o k then obj_update k v o else obj_place k v o.

(** The property name whose assignment is intercepted by the accessor
    that every ordinary object inherits from [Object.prototype]. *)
Definition proto_key : string := "__proto__".

(** The assignment [o[k] = v] with a string [v] (ordinary [[Set]]): an own
    property is overwritten in place; otherwise the prototype chain is
    consulted. [Object.prototype] holds data properties only, except for
    the accessor [__proto__], whose setter returns without effect when the
    value is neither an object nor [null]: no own property is created.
    Every other name becomes a new own property. *)
Definition obj_assign (k v : string) (o : JsObject) : JsObject :=
  if obj_has o k then obj_update k v o
  else if decide (k = proto_key) then o
  else obj_place k v o.

(** [{ ...src }] copied into [target]: [CopyDataProperties]. *)
Definition obj_spread (src target : JsObject) : JsObject :=
  foldl (λ t kv, obj_define kv.1 kv.2 t) target (obj_entries src).

(** An object is in enumeration order when no property would have been
    enumerated before one that precedes it. *)
Definition enum_ordered (o : JsObject) : Prop :=
  StronglySorted (λ k k', key_before k' k = false) (obj_keys o).

Definition obj_wf (o : JsObject) : Prop :=
  NoDup (obj_keys o) ∧ enum_ordered o.

(** ** Data model ([types.ts]) *)

Inductive AssignmentType := MCQ | WRITTEN | PROJECT.
Inductive Difficulty := EASY | MEDIUM | HARD.
Inductive Status := Draft | Published | Archived.

(** The string a [status] value is at run time. *)
Definition status_str (s : Status) : string :=
  match s with
  | Draft => "Draft"
  | Published => "Published"
  | Archived => "Archived"
  end.

Record Question := {
  q_id : string;
  q_text : string;
  q_options : option (list string);
  q_correctAnswer : option string;
  q_rubric : option string
}.

Record Assignment := {
  a_id : string;
  a_title : string;
  a_subject : string;
  a_type : AssignmentType;
  a_difficulty : Difficulty;
  a_questions : list Question;
  a_createdAt : string;
  a_dueDate : string;
  a_status : Status
}.

(** The grading result [{ score, feedback }]. The score is opaque backend
    data for the client, apart from the sentinel 0; it is kept as an
    integer. *)
Module Feedback.
Record t := { score : Z; feedback : string }.
End Feedback.

(** Values that [JSON.parse] can produce, and [undefined]; numbers are
    kept as integers. *)
Inductive JsValue :=
  | JUndefined
  | JNull
  | JBool (b : bool)
  | JNum (n : Z)
  | JStr (s : string)
  | JArr (items : list JsValue)
  | JObj (props : list (string * JsValue)).

(** [ToBoolean]. *)
Definition js_truthy (v : JsValue) : bool :=
  match v with
  | JUndefined | JNull => false
  | JBool b => b
  | JNum n => negb (n =? 0)%Z
  | JStr s => negb (bool_decide (s = ""))
  | JArr _ | JObj _ => true
  end.

(** ** Computations: state, exceptions, trace *)

Inductive JsError :=
  | NetworkError
  | HttpError (status : N)
  | SyntaxError
  | TypeError.

Inductive Outcome (A : Type) :=
  | Return (a : A)
  | Throw (e : JsError).
Arguments Return {A} a.
Arguments Throw {A} e.

Inductive Request :=
  | PostGenerate (topic : string) (type : AssignmentType)
      (difficulty : Difficulty)
  | PostGrade (assignment_id : string) (student_id : JsValue)
      (answer_text : string)
  | PostGradeLegacy (question answer rubric : string)
  | GetAssignment (id : string).

Inductive Event :=
  | EvAlert (msg : string)
  | EvConsoleError (msg : string) (e : JsError)
  | EvHttp (r : Request).

Definition is_http (e : Event) : bool :=
  match e with EvHttp _ => true | _ => false end.

(** What lies outside the React component: browser storage and the log of
    observable effects, oldest first. *)
Record World := {
  localStorage : gmap string string;
  trace : list Event
}.

(** A computation over a state [S] that returns or throws. *)
Definition M (S A : Type) : Type := S → Outcome A * S.

Definition ret {S A} (a : A) : M S A := λ s, (Return a, s).

Definition bind {S A B} (m : M S A) (k : A → M S B) : M S B :=
  λ s, match m s with
       | (Return a, s') => k a s'
       | (Throw e, s') => (Throw e, s')
       end.

Definition throw {S A} (e : JsError) : M S A := λ s, (Throw e, s).

Definition modify {S} (f : S → S) : M S unit := λ s, (Return (), f s).

(** [try { body } catch (error) { handler }] *)
Definition try_catch {S A} (body : M S A) (handler : JsError → M S A)
    : M S A :=
  λ s, match body s with
       | (Return a, s') => (Return a, s')
       | (Throw e, s') => handler e s'
       end.

(** [try { body } finally { fin }] *)
Definition try_finally {S A} (body : M S A) (fin : M S unit) : M S A :=
  λ s, match body s with
       | (r, s') =>
           match fin s' with
           | (Return _, s'') => (r, s'')
           | (Throw e, s'') => (Throw e, s'')
           end
       end.

Declare Scope js_scope.
Delimit Scope js_scope with js.
Notation "'let*' x := m 'in' k" := (bind m (λ x, k))
  (at level 10, x name, m at level 100, k at level 200) : js_scope.
Notation "m ;; k" := (bind m (λ _, k))
  (at level 100, k at level 200, right associativity) : js_scope.
Local Open Scope js_scope.

Definition record (e : Event) (w : World) : World :=
  {| localStorage := localStorage w; trace := trace w ++ [e] |}.

Definition emit (e : Event) : M World unit := modify (record e).

Definition alert (msg : string) : M World unit := emit (EvAlert msg).

Definition console_error (msg : string) (e : JsError) : M World unit :=
  emit (EvConsoleError msg e).

Definition localStorage_getItem (key : string) : M World (option string) :=
  λ w, (Return (localStorage w !! key), w).

(** The backend as seen from the client: for each endpoint, what the
    request yields given everything observed so far. [Return] is a
    resolved promise carrying [response.data], [Throw] a rejected one. *)
Record Backend := {
  generate_endpoint :
    list Event → string → AssignmentType → Difficulty → Outcome (list Question);
  grade_endpoint :
    list Event → string → JsValue → string → Outcome Feedback.t;
  grade_endpoint_legacy :
    list Event → string → string → string → Outcome Feedback.t;
  (** the assignments the backend recognizes, by identifier *)
  known_assignments : gmap string Assignment
}.

(** [await axios.post(url, body)], [await axios.get(url)]: the request is
    recorded, then the promise settles. *)
Definition axios {A} (r : Request) (settle : list Event → Outcome A)
    : M World A :=
  emit (EvHttp r);; (λ w, (settle (trace w), w)).

(** ** API client ([services/geminiService.ts]) *)

Section api_client.
Variable backend : Backend.

Definition generateContent
    (topic : string) (type : AssignmentType) (difficulty : Difficulty)
    : M World (list Question) :=
  try_catch
    (let* data := axios (PostGenerate topic type difficulty)
                    (λ h, generate_endpoint backend h topic type difficulty) in
     ret data)
    (λ error,
       console_error "API Error generating content:" error;;
       ret []).

Definition grading_fallback : Feedback.t :=
  {| Feedback.score := 0;
     Feedback.feedback := "Error connecting to grading service." |}.

Definition autoGradeSubmission
    (assignmentId : string) (studentId : JsValue) (answerText : string)
    : M World Feedback.t :=
  try_catch
    (let* data := axios (PostGrade assignmentId studentId answerText)
                    (λ h, grade_endpoint backend h assignmentId studentId
                            answerText) in
     ret data)
    (λ error,
       console_error "Grading Error:" error;;
       ret grading_fallback).

(** Modelled from the spec: [getAssignment] is imported by the student
    portal from [services/geminiService], but neither version of that
    module at hand defines it. Per the specification it issues
    [GET /assignments/{id}] and yields the Assignment, or fails with a
    NotFound-shaped error when the backend does not recognize [id]. *)
Definition getAssignment (id : string) : M World Assignment :=
  axios (GetAssignment id)
    (λ _, match known_assignments backend !! id with
          | Some a => Return a
          | None => Throw (HttpError 404)
          end).

End api_client.

(** The earlier revision of the API client. *)
Module Legacy.
Section api_client.
Variable backend : Backend.

Definition generateContent
    (topic : string) (type : AssignmentType) (difficulty : Difficulty)
    : M World (list Question) :=
  try_catch
    (let* data := axios (PostGenerate topic type difficulty)
                    (λ h, generate_endpoint backend h topic type difficulty) in
     ret data)
    (λ error, console_error "API Error" error;; ret []).

Definition grading_fallback : Feedback.t :=
  {| Feedback.score := 0;
     Feedback.feedback := "Error connecting to AI grading service." |}.

Definition autoGradeSubmission (question answer rubric : string)
    : M World Feedback.t :=
  try_catch
    (let* data := axios (PostGradeLegacy question answer rubric)
                    (λ h, grade_endpoint_legacy backend h question answer
                            rubric) in
     ret data)
    (λ error, console_error "Grading Error" error;; ret grading_fallback).
End api_client.
End Legacy.

(** ** Session store ([services/authService.ts]) *)

Section session_store.
(** [JSON.parse]: the parsed value, or the [SyntaxError] it throws. *)
Variable JSON_parse : string → Outcome JsValue.

(** [user ? JSON.parse(user) : null], where [user] is what [getItem]
    returned: [null] for an absent key, and a string is truthy unless
    empty. *)
Definition getCurrentUser : M World JsValue :=
  let* user := localStorage_getItem "user" in
  match user with
  | Some s =>
      if negb (bool_decide (s = "")) then (λ w, (JSON_parse s, w))
      else ret JNull
  | None => ret JNull
  end.
End session_store.

(** ** Student portal (the [StudentPortal] component) *)

Record PortalState := {
  step : N;
  assignmentId : string;
  assignmentData : option Assignment;
  answers : JsObject;
  feedback : option Feedback.t;
  loading : bool
}.

(** [useState] initial values. *)
Definition initial_portal : PortalState :=
  {| step := 1; assignmentId := ""; assignmentData := None;
     answers := obj_empty; feedback := None; loading := false |}.

(** A handler runs over the component state and the world. *)
Abbreviation H := (M (PortalState * World)).

(** A call into a service module: it cannot touch the component state. *)
Definition liftW {S A} (m : M World A) : M (S * World) A :=
  λ '(st, w), match m w with (r, w') => (r, (st, w')) end.

Definition setStep (v : N) : H unit :=
  modify (λ '(st, w),
    ({| step := v; assignmentId := assignmentId st;
        assignmentData := assignmentData st; answers := answers st;
        feedback := feedback st; loading := loading st |}, w)).

Definition setAssignmentId (v : string) : H unit :=
  modify (λ '(st, w),
    ({| step := step st; assignmentId := v;
        assignmentData := assignmentData st; answers := answers st;
        feedback := feedback st; loading := loading st |}, w)).

Definition setAssignmentData (v : option Assignment) : H unit :=
  modify (λ '(st, w),
    ({| step := step st; assignmentId := assignmentId st;
        assignmentData := v; answers := answers st;
        feedback := feedback st; loading := loading st |}, w)).

(** [setAnswers(prev => f(prev))]; [setAnswers(v)] is the constant update. *)
Definition setAnswers (f : JsObject → JsObject) : H unit :=
  modify (λ '(st, w),
    ({| step := step st; assignmentId := assignmentId st;
        assignmentData := assignmentData st; answers := f (answers st);
        feedback := feedback st; loading := loading st |}, w)).

Definition setFeedback (v : option Feedback.t) : H unit :=
  modify (λ '(st, w),
    ({| step := step st; assignmentId := assignmentId st;
        assignmentData := assignmentData st; answers := answers st;
        feedback := v; loading := loading st |}, w)).

Definition setLoading (v : bool) : H unit :=
  modify (λ '(st, w),
    ({| step := step st; assignmentId := assignmentId st;
        assignmentData := assignmentData st; answers := answers st;
        feedback := feedback st; loading := v |}, w)).

(** The own property [k] of an object given by its property list. *)
Fixpoint js_own (props : list (string * JsValue)) (k : string) : JsValue :=
  match props with
  | [] => JUndefined
  | (k', v) :: rest => if decide (k' = k) then v else js_own rest k
  end.

(** Property read [v.k] on a parsed value: [undefined] unless [v] is an
    object with that property; reading from [null] or [undefined] throws. *)
Definition js_get {S} (v : JsValue) (k : string) : M S JsValue :=
  match v with
  | JUndefined | JNull => throw TypeError
  | JObj props => ret (js_own props k)
  | _ => ret JUndefined
  end.

(** [initialAnswers] of [handleLoadAssignment]: starting from [{}], one
    assignment [initialAnswers[q.id] = ""] per question, in order. *)
Definition seedAnswers (questions : list Question) : JsObject :=
  foldl (λ initialAnswers q, obj_assign (q_id q) "" initialAnswers)
        obj_empty questions.

(** [formattedSubmission] of [handleSubmit]:
    [Object.entries(answers).map(([qId, ans], idx) => `Q${idx + 1}: ${ans}`)
       .join("\n\n")]. *)
Definition formattedSubmission (answers : JsObject) : string :=
  String.concat blank_line
    (imap (λ idx '(qId, ans), "Q" +:+ pretty (idx + 1)%nat +:+ ": " +:+ ans)
          (obj_entries answers)).

Section student_portal.
Variable backend : Backend.
Variable JSON_parse : string → Outcome JsValue.
(** [String.prototype.trim] *)
Variable trim : string → string.
(** The imported [getAssignment]: any implementation. *)
Variable getAssignment : string → M World Assignment.

(** Each handler takes [view], the state captured by the closure of the
    render that installed it, and runs on the current state. The fetched
    [data], untyped in the source, is taken at the type [Assignment] that
    [getAssignment] promises. *)

Definition handleLoadAssignment (view : PortalState) : H unit :=
  if bool_decide (assignmentId view = "") then
    liftW (alert "Please enter an ID")
  else
    setLoading true;;
    try_finally
      (try_catch
         (let* data := liftW (getAssignment (trim (assignmentId view))) in
          setAssignmentData (Some data);;
          let initialAnswers := seedAnswers (a_questions data) in
          setAnswers (λ _, initialAnswers);;
          setStep 2)
         (λ error, liftW (alert "Assignment not found! Check the ID.")))
      (setLoading false).

Definition handleAnswerChange (questionId value : string) : H unit :=
  setAnswers (λ prev, obj_define questionId value (obj_spread prev obj_empty)).

Definition handleSubmit (view : PortalState) : H unit :=
  let* user := liftW (getCurrentUser JSON_parse) in
  if negb (js_truthy user) then liftW (alert "Please login first")
  else
    setLoading true;;
    let formattedSubmission := formattedSubmission (answers view) in
    try_finally
      (try_catch
         (let* user_id := js_get user "id" in
          let* result :=
            liftW (autoGradeSubmission backend (assignmentId view) user_id
                     formattedSubmission) in
          setFeedback (Some result))
         (λ error, liftW (alert "Error submitting assignment.")))
      (setLoading false).

(** The [onChange] of the input rendered for the question at position
    [index]: the question list is only rendered at step 2 with an
    assignment held, and the input passes its question's [id]. *)
Definition onAnswerInput (view : PortalState) (index : nat) (value : string)
    : H unit :=
  if bool_decide (step view = 2) then
    match assignmentData view with
    | Some data =>
        match a_questions data !! index with
        | Some q => handleAnswerChange (q_id q) value
        | None => ret ()
        end
    | None => ret ()
    end
  else ret ().

(** Running a handler installed by the latest render. *)
Definition fire (h : PortalState → H unit) (s : PortalState * World)
    : Outcome unit * (PortalState * World) :=
  h s.1 s.

(** A sequence of answer edits, each handled after a re-render. *)
Definition editAnswers (edits : list (nat * string)) (s : PortalState * World)
    : PortalState * World :=
  foldl (λ s e, (fire (λ view, onAnswerInput view e.1 e.2) s).2) s edits.

End student_portal.

(** The earlier revision of the student portal: a single free-text answer
    instead of the Answer Map. *)
Module LegacyPortal.
Record State := {
  step : N;
  assignmentId : string;
  assignmentData : option Assignment;
  answer : string;
  feedback : option Feedback.t;
  loading : bool
}.

Definition setStep (v : N) : M (State * World) unit :=
  modify (λ '(st, w),
    ({| step := v; assignmentId := assignmentId st;
        assignmentData := assignmentData st; answer := answer st;
        feedback := feedback st; loading := loading st |}, w)).

Definition setAssignmentData (v : option Assignment)
    : M (State * World) unit :=
  modify (λ '(st, w),
    ({| step := step st; assignmentId := assignmentId st;
        assignmentData := v; answer := answer st;
        feedback := feedback st; loading := loading st |}, w)).

Definition setFeedback (v : option Feedback.t) : M (State * World) unit :=
  modify (λ '(st, w),
    ({| step := step st; assignmentId := assignmentId st;
        assignmentData := assignmentData st; answer := answer st;
        feedback := v; loading := loading st |}, w)).

Definition setLoading (v : bool) : M (State * World) unit :=
  modify (λ '(st, w),
    ({| step := step st; assignmentId := assignmentId st;
        assignmentData := assignmentData st; answer := answer st;
        feedback := feedback st; loading := v |}, w)).

Section handlers.
Variable backend : Backend.
Variable JSON_parse : string → Outcome JsValue.
Variable getAssignment : string → M World Assignment.

Definition handleLoadAssignment (view : State) : M (State * World) unit :=
  if bool_decide (assignmentId view = "") then
    liftW (alert "Please enter an ID")
  else
    setLoading true;;
    try_finally
      (try_catch
         (let* data := liftW (getAssignment (assignmentId view)) in
          setAssignmentData (Some data);;
          setStep 2)
         (λ error, liftW (alert "Assignment not found! Check the ID.")))
      (setLoading false).

Definition handleSubmit (view : State) : M (State * World) unit :=
  let* user := liftW (getCurrentUser JSON_parse) in
  if negb (js_truthy user) then liftW (alert "Please login first")
  else
    setLoading true;;
    try_finally
      (try_catch
         (let* user_id := js_get user "id" in
          let* result :=
            liftW (autoGradeSubmission backend (assignmentId view) user_id
                     (answer view)) in
          setFeedback (Some result))
         (λ error, liftW (alert "Error submitting assignment.")))
      (setLoading false).
End handlers.
End LegacyPortal.

(** ** Assignment list (the [AssignmentsList] component) *)

(** [s.includes(t)]: [t] occurs in [s] as a contiguous substring. *)
Fixpoint includes (s t : string) : bool :=
  if String.prefix t s then true
  else match s with
       | EmptyString => false
       | String _ s' => includes s' t
       end.

Section assignments_list.
(** [String.prototype.toLowerCase] *)
Variable toLowerCase : string → string.

Definition matchesSearch (searchTerm : string) (a : Assignment) : bool :=
  includes (toLowerCase (a_title a)) (toLowerCase searchTerm)
  || includes (toLowerCase (a_subject a)) (toLowerCase searchTerm).

Definition matchesStatus (statusFilter : string) (a : Assignment) : bool :=
  bool_decide (statusFilter = "All")
  || bool_decide (status_str (a_status a) = statusFilter).

Definition filteredAssignments
    (assignments : list Assignment) (searchTerm statusFilter : string)
    : list Assignment :=
  List.filter
    (λ a, matchesSearch searchTerm a && matchesStatus statusFilter a)
    assignments.
End assignments_list.

(** ASCII instances of the library functions, for running the model. *)
Definition ascii_lower (c : ascii) : ascii :=
  let n := N_of_ascii c in
  if (65 <=? n) && (n <=? 90) then ascii_of_N (n + 32) else c.

Fixpoint ascii_toLowerCase (s : string) : string :=
  match s with
  | EmptyString => EmptyString
  | String c r => String (ascii_lower c) (ascii_toLowerCase r)
  end.

(** ** The specification's vocabulary

    Definitions that follow the wording of the specification, against
    which the functions above are compared. *)

(** One line per answer, [Q<n>: <answer>], numbered upwards from [n]. *)
Fixpoint numbered_lines (n : nat) (answers : list string) : list string :=
  match answers with
  | [] => []
  | ans :: rest =>
      ("Q" +:+ pretty n +:+ ": " +:+ ans) :: numbered_lines (S n) rest
  end.

(** Lines separated by a blank line. *)
Fixpoint join_blank_lines (lines : list string) : string :=
  match lines with
  | [] => ""
  | [line] => line
  | line :: rest => line +:+ blank_line +:+ join_blank_lines rest
  end.

(** [t] occurs somewhere in [s]. *)
Definition occurs_in (t s : string) : Prop :=
  ∃ before after, s = before +:+ t +:+ after.

(** [kept] is [items] with exactly the elements violating [P] removed:
    order and repetitions of the others are preserved. *)
Inductive keeps_exactly {A} (P : A → Prop) : list A → list A → Prop :=
  | keeps_nil : keeps_exactly P [] []
  | keeps_keep a items kept :
      P a → keeps_exactly P items kept →
      keeps_exactly P (a :: items) (a :: kept)
  | keeps_drop a items kept :
      ¬ P a → keeps_exactly P items kept → keeps_exactly P (a :: items) kept.

Section filter_vocabulary.
Variable toLowerCase : string → string.

(** The two predicates of the filter, in the specification's terms. *)
Definition search_matches (searchTerm : string) (a : Assignment) : Prop :=
  occurs_in (toLowerCase searchTerm) (toLowerCase (a_title a))
  ∨ occurs_in (toLowerCase searchTerm) (toLowerCase (a_subject a)).

Definition status_matches (statusFilter : string) (a : Assignment) : Prop :=
  statusFilter = "All" ∨ status_str (a_status a) = statusFilter.

End filter_vocabulary.

(** ** Sample data *)

Definition mkQuestion (id text : string) : Question :=
  {| q_id := id; q_text := text; q_options := None;
     q_correctAnswer := None; q_rubric := None |}.

Definition mkAssignment (id title subject : string) (status : Status)
    (questions : list Question) : Assignment :=
  {| a_id := id; a_title := title; a_subject := subject; a_type := WRITTEN;
     a_difficulty := MEDIUM; a_questions := questions;
     a_createdAt := "2024-03-10"; a_dueDate := "2024-03-20";
     a_status := status |}.

(** [MOCK_ASSIGNMENTS] of [AssignmentsList.tsx]; its questions carry only a
    text, which the list view never reads beyond counting them. *)
Definition MOCK_ASSIGNMENTS : list Assignment :=
  [ {| a_id := "1"; a_title := "Introduction to Photosynthesis";
       a_subject := "Biology 101"; a_type := MCQ; a_difficulty := EASY;
       a_questions := replicate 5 (mkQuestion "" "Sample question");
       a_createdAt := "2024-03-10"; a_dueDate := "2024-03-20";
       a_status := Published |};
    {| a_id := "2"; a_title := "Hamlet: Themes & Motifs";
       a_subject := "English Lit"; a_type := WRITTEN; a_difficulty := HARD;
       a_questions := replicate 3 (mkQuestion "" "Sample question");
       a_createdAt := "2024-03-12"; a_dueDate := "2024-03-25";
       a_status := Draft |};
    {| a_id := "3"; a_title := "Linear Algebra Midterm";
       a_subject := "Math 202"; a_type := MCQ; a_difficulty := MEDIUM;
       a_questions := replicate 10 (mkQuestion "" "Sample question");
       a_createdAt := "2024-02-28"; a_dueDate := "2024-03-05";
       a_status := Archived |} ].

(** Two questions with distinct identifiers. *)
Definition essay : Assignment :=
  mkAssignment "X" "Cell Biology" "Biology 101" Published
    [mkQuestion "q1" "What is a cell?"; mkQuestion "q2" "What is a membrane?"].

(** Two questions that share one identifier. *)
Definition twin_quiz : Assignment :=
  mkAssignment "D" "Twins" "General" Published
    [mkQuestion "q1" "First"; mkQuestion "q1" "Second"].

(** One question whose identifier is [__proto__]. *)
Definition proto_quiz : Assignment :=
  mkAssignment "P" "Prototype" "General" Published
    [mkQuestion proto_key "Only question"].

(** No question at all. *)
Definition blank_quiz : Assignment :=
  mkAssignment "E" "Blank" "General" Draft [].

(** A backend that knows the four assignments above and whose generation
    and grading endpoints are down. *)
Definition offline_backend : Backend :=
  {| generate_endpoint := λ _ _ _ _, Throw NetworkError;
     grade_endpoint := λ _ _ _ _, Throw (HttpError 503);
     grade_endpoint_legacy := λ _ _ _ _, Throw (HttpError 503);
     known_assignments :=
       <["X" := essay]> (<["D" := twin_quiz]> (<["P" := proto_quiz]>
         (<["E" := blank_quiz]> ∅))) |}.

(** The stored form of the user record [{ id: 7 }]. *)
Definition stored_user : string :=
  "{" +:+ String char_dquote ("id" +:+ String char_dquote ":7}").

(** A [JSON.parse] that knows two documents and rejects the rest. *)
Definition toy_JSON_parse (s : string) : Outcome JsValue :=
  if decide (s = stored_user) then Return (JObj [("id", JNum 7)])
  else if decide (s = "null") then Return JNull
  else Throw SyntaxError.

Definition no_trim (s : string) : string := s.

Definition fresh_world : World := {| localStorage := ∅; trace := [] |}.

Definition logged_in_world : World :=
  {| localStorage := <["user" := stored_user]> ∅; trace := [] |}.

(** The portal after the student typed [id] into the identifier field of a
    freshly mounted component. *)
Definition typed (id : string) : PortalState :=
  {| step := 1; assignmentId := id; assignmentData := None;
     answers := obj_empty; feedback := None; loading := false |}.

(** ** The rest of the session store ([services/authService.ts]) and of the
    API client

    The requests, dialogs and navigations of the code below are kept in a
    journal of their own, beside the [World] they also act on. *)

Inductive SiteRequest :=
  | PostAnalyze (id : string)
  | PostRegister (email password role : string)
  | PostToken (username password : string)
  | GetUsersMe (authorization : string).

Inductive SiteEvent :=
  | SvHttp (r : SiteRequest)
  | SvConfirm (msg : string) (answer : bool)
  | SvNavigate (href : string).

Record Site := {
  world : World;
  journal : list SiteEvent
}.

(** A computation on the world, run inside the site. *)
Definition inWorld {A} (m : M World A) : M Site A :=
  λ s, match m (world s) with
       | (r, w') => (r, {| world := w'; journal := journal s |})
       end.

Definition noted (e : SiteEvent) (s : Site) : Site :=
  {| world := world s; journal := journal s ++ [e] |}.

Definition note (e : SiteEvent) : M Site unit := modify (noted e).

(** The site after an alert or a console message. *)
Definition logged (e : Event) (s : Site) : Site :=
  {| world := record e (world s); journal := journal s |}.

(** A call into a service module from a component with state [S]. *)
Definition liftS {S A} (m : M Site A) : M (S * Site) A :=
  λ '(st, s), match m s with (r, s') => (r, (st, s')) end.

(** The remaining endpoints, each answering from what the site has seen:
    the audit text of [response.data.text], nothing for registration, the
    [access_token], and the user record of [/users/me]. *)
Record SiteBackend := {
  analyze_endpoint : Site → string → Outcome string;
  register_endpoint : Site → string → string → string → Outcome unit;
  token_endpoint : Site → string → string → Outcome string;
  me_endpoint : Site → string → Outcome JsValue
}.

Definition request {A} (r : SiteRequest) (settle : Site → Outcome A)
    : M Site A :=
  note (SvHttp r);; (λ s, (settle s, s)).

Definition with_item (key value : string) (w : World) : World :=
  {| localStorage := <[key := value]> (localStorage w); trace := trace w |}.

Definition without_item (key : string) (w : World) : World :=
  {| localStorage := delete key (localStorage w); trace := trace w |}.

Definition localStorage_setItem (key value : string) : M World unit :=
  modify (with_item key value).

Definition localStorage_removeItem (key : string) : M World unit :=
  modify (without_item key).

(** The site with its world replaced. *)
Definition on_world (f : World → World) (s : Site) : Site :=
  {| world := f (world s); journal := journal s |}.

Section auth_service.
Variable site_backend : SiteBackend.
(** [JSON.stringify] on a parsed value. *)
Variable JSON_stringify : JsValue → string.

Definition register (email password role : string) : M Site unit :=
  request (PostRegister email password role)
    (λ s, register_endpoint site_backend s email password role).

(** The form data carries [username] and [password]; the second request
    carries the header [Authorization: Bearer <token>]. *)
Definition login (email password : string) : M Site unit :=
  let* access_token :=
    request (PostToken email password)
      (λ s, token_endpoint site_backend s email password) in
  inWorld (localStorage_setItem "token" access_token);;
  let* userRes :=
    request (GetUsersMe ("Bearer " +:+ access_token))
      (λ s, me_endpoint site_backend s ("Bearer " +:+ access_token)) in
  inWorld (localStorage_setItem "user" (JSON_stringify userRes)).

Definition logout : M Site unit :=
  inWorld (localStorage_removeItem "token");;
  inWorld (localStorage_removeItem "user");;
  note (SvNavigate "/login").
End auth_service.

Definition audit_fallback : string := "Could not perform audit at this time.".

(** The text an audit ends up with, given how its request settled. *)
Definition audit_text (response : Outcome string) : string :=
  match response with
  | Return text => text
  | Throw _ => audit_fallback
  end.

Section audit_client.
Variable site_backend : SiteBackend.

(** [analyzeAssignment] of [services/geminiService.ts]. *)
Definition analyzeAssignment (assignment : Assignment) : M Site string :=
  try_catch
    (let* text := request (PostAnalyze (a_id assignment))
                    (λ s, analyze_endpoint site_backend s (a_id assignment)) in
     ret text)
    (λ error,
       inWorld (console_error "Audit Error:" error);;
       ret audit_fallback).

(** The part of [analyzeAssignment] that runs once the request has
    settled with [response]. *)
Definition analyzeAssignment_settled (response : Outcome string)
    : M Site string :=
  try_catch
    (let* text := (λ s, (response, s)) in ret text)
    (λ error,
       inWorld (console_error "Audit Error:" error);;
       ret audit_fallback).
End audit_client.

(** ** The rest of the assignment list (the [AssignmentsList] component) *)

Module AssignmentsList.
Record State := {
  assignments : list Assignment;
  searchTerm : string;
  statusFilter : string;
  analyzingId : option string;
  analysisResult : option (string * string)
}.

(** [useState] initial values. *)
Definition initial : State :=
  {| assignments := MOCK_ASSIGNMENTS; searchTerm := ""; statusFilter := "All";
     analyzingId := None; analysisResult := None |}.

Definition setAssignments (f : list Assignment → list Assignment)
    : M (State * Site) unit :=
  modify (λ '(st, s),
    ({| assignments := f (assignments st); searchTerm := searchTerm st;
        statusFilter := statusFilter st; analyzingId := analyzingId st;
        analysisResult := analysisResult st |}, s)).

Definition setSearchTerm (v : string) : M (State * Site) unit :=
  modify (λ '(st, s),
    ({| assignments := assignments st; searchTerm := v;
        statusFilter := statusFilter st; analyzingId := analyzingId st;
        analysisResult := analysisResult st |}, s)).

Definition setStatusFilter (v : string) : M (State * Site) unit :=
  modify (λ '(st, s),
    ({| assignments := assignments st; searchTerm := searchTerm st;
        statusFilter := v; analyzingId := analyzingId st;
        analysisResult := analysisResult st |}, s)).

Definition setAnalyzingId (v : option string) : M (State * Site) unit :=
  modify (λ '(st, s),
    ({| assignments := assignments st; searchTerm := searchTerm st;
        statusFilter := statusFilter st; analyzingId := v;
        analysisResult := analysisResult st |}, s)).

Definition setAnalysisResult (v : option (string * string))
    : M (State * Site) unit :=
  modify (λ '(st, s),
    ({| assignments := assignments st; searchTerm := searchTerm st;
        statusFilter := statusFilter st; analyzingId := analyzingId st;
        analysisResult := v |}, s)).

(** [prev.filter(a => a.id !== id)] *)
Definition without (id : string) (prev : list Assignment) : list Assignment :=
  List.filter (λ a, negb (bool_decide (a_id a = id))) prev.

(** [deleteAssignment]; [confirmed] is the user's answer to the dialog. *)
Definition deleteAssignment (confirmed : bool) (id : string)
    : M (State * Site) unit :=
  let* ok :=
    liftS (note (SvConfirm "Are you sure you want to delete this assignment?"
                   confirmed);;
           ret confirmed) in
  if ok then setAssignments (without id) else ret ().

Section handlers.
Variable site_backend : SiteBackend.
Variable toLowerCase : string → string.

(** The rows rendered by [filteredAssignments.map]. *)
Definition rows (st : State) : list Assignment :=
  filteredAssignments toLowerCase (assignments st) (searchTerm st)
    (statusFilter st).

Definition handleAnalyze (assignment : Assignment) : M (State * Site) unit :=
  setAnalyzingId (Some (a_id assignment));;
  setAnalysisResult None;;
  try_finally
    (try_catch
       (let* result := liftS (analyzeAssignment site_backend assignment) in
        setAnalysisResult (Some (a_id assignment, result)))
       (λ error, liftS (inWorld (console_error "Analysis failed" error))))
    (setAnalyzingId None).
End handlers.

(** [handleAnalyze] up to the point where it waits for the response: the
    two state updates and the request. *)
Definition handleAnalyze_begin (assignment : Assignment)
    : M (State * Site) unit :=
  setAnalyzingId (Some (a_id assignment));;
  setAnalysisResult None;;
  liftS (note (SvHttp (PostAnalyze (a_id assignment)))).

(** [handleAnalyze] from the point where the request has settled with
    [response]. *)
Definition handleAnalyze_resume (assignment : Assignment)
    (response : Outcome string) : M (State * Site) unit :=
  try_finally
    (try_catch
       (let* result := liftS (analyzeAssignment_settled response) in
        setAnalysisResult (Some (a_id assignment, result)))
       (λ error, liftS (inWorld (console_error "Analysis failed" error))))
    (setAnalyzingId None).

(** The audit panel of a row is rendered when
    [analysisResult?.id === assignment.id]. *)
Definition panelShown (st : State) (assignment : Assignment) : bool :=
  match analysisResult st with
  | Some (id, _) => bool_decide (id = a_id assignment)
  | None => false
  end.
End AssignmentsList.

(** ** Assignment creator (the [AssignmentCreator] component) *)

Module AssignmentCreator.
Record State := {
  topic : string;
  type : AssignmentType;
  difficulty : Difficulty;
  loading : bool;
  generatedQuestions : list Question;
  hasGenerated : bool
}.

Definition initial : State :=
  {| topic := ""; type := MCQ; difficulty := MEDIUM; loading := false;
     generatedQuestions := []; hasGenerated := false |}.

Definition setLoading (v : bool) : M (State * World) unit :=
  modify (λ '(st, w),
    ({| topic := topic st; type := type st; difficulty := difficulty st;
        loading := v; generatedQuestions := generatedQuestions st;
        hasGenerated := hasGenerated st |}, w)).

Definition setGeneratedQuestions (v : list Question) : M (State * World) unit :=
  modify (λ '(st, w),
    ({| topic := topic st; type := type st; difficulty := difficulty st;
        loading := loading st; generatedQuestions := v;
        hasGenerated := hasGenerated st |}, w)).

Definition setHasGenerated (v : bool) : M (State * World) unit :=
  modify (λ '(st, w),
    ({| topic := topic st; type := type st; difficulty := difficulty st;
        loading := loading st; generatedQuestions := generatedQuestions st;
        hasGenerated := v |}, w)).

Section handlers.
Variable backend : Backend.
Variable trim : string → string.

Definition handleGenerate (view : State) : M (State * World) unit :=
  if bool_decide (trim (topic view) = "") then ret ()
  else
    setLoading true;;
    setHasGenerated false;;
    let* questions :=
      liftW (generateContent backend (topic view) (type view)
               (difficulty view)) in
    setGeneratedQuestions questions;;
    setLoading false;;
    setHasGenerated true.
End handlers.
End AssignmentCreator.

(** ** The student portal as a whole *)

(** Property read [v.k] on a value that is neither [null] nor
    [undefined]. *)
Definition js_prop (v : JsValue) (k : string) : JsValue :=
  match v with
  | JObj props => js_own props k
  | _ => JUndefined
  end.

Definition is_alert (e : Event) : bool :=
  match e with EvAlert _ => true | _ => false end.


Section portal_page.
Variable backend : Backend.
Variable JSON_parse : string → Outcome JsValue.
Variable trim : string → string.
Variable getAssignment : string → M World Assignment.



End portal_page.



(** ** More sample data *)

(** A [JSON.stringify] that agrees with [toy_JSON_parse] on the two
    documents it knows. *)
Definition toy_JSON_stringify (v : JsValue) : string :=
  match v with
  | JNull => "null"
  | _ => stored_user
  end.

(** A backend with one account, whose password is [secret]. *)
Definition campus : SiteBackend :=
  {| analyze_endpoint := λ _ id,
       if decide (id = "1") then Return "Well balanced."
       else Throw (HttpError 404);
     register_endpoint := λ _ _ _ _, Return ();
     token_endpoint := λ _ username password,
       if decide (password = "secret") then Return "t0k3n"
       else Throw (HttpError 401);
     me_endpoint := λ _ authorization,
       if decide (authorization = "Bearer t0k3n")
       then Return (JObj [("id", JNum 7)])
       else Throw (HttpError 401) |}.

(** The same backend with the profile endpoint down. *)
Definition campus_without_profiles : SiteBackend :=
  {| analyze_endpoint := analyze_endpoint campus;
     register_endpoint := register_endpoint campus;
     token_endpoint := token_endpoint campus;
     me_endpoint := λ _ _, Throw (HttpError 503) |}.

Definition fresh_site : Site := {| world := fresh_world; journal := [] |}.

(** The portal with [essay] loaded by a student who is logged in. *)
Definition essay_open : PortalState * World :=
  (fire (handleLoadAssignment no_trim (getAssignment offline_backend))
        (typed "X", logged_in_world)).2.

(** A creator with a topic typed in. *)
Definition creator_ready : AssignmentCreator.State :=
  {| AssignmentCreator.topic := "Photosynthesis";
     AssignmentCreator.type := MCQ;
     AssignmentCreator.difficulty := MEDIUM;
     AssignmentCreator.loading := false;
     AssignmentCreator.generatedQuestions := [mkQuestion "old" "Old preview"];
     AssignmentCreator.hasGenerated := true |}.

(** A world whose stored user record is not JSON. *)
Definition garbled_world : World :=
  {| localStorage := <["user" := "{id:"]> ∅; trace := [] |}.

(** A backend whose generation endpoint answers with no question. *)
Definition quiet_backend : Backend :=
  {| generate_endpoint := λ _ _ _ _, Return [];
     grade_endpoint := grade_endpoint offline_backend;
     grade_endpoint_legacy := grade_endpoint_legacy offline_backend;
     known_assignments := known_assignments offline_backend |}.

(** *** Facts about the object model *)

Section object_facts.
Implicit Types (o : JsObject) (k v : string).

Lemma key_before_asym k k' : key_before k k' = true → key_before k' k = false.
Proof.
  unfold key_before.
  destruct (array_index k) as [n|], (array_index k') as [n'|]; try done.
  intros H%N.ltb_lt. apply N.ltb_ge. lia.
Qed.

Lemma key_before_trans k1 k2 k3 :
  key_before k1 k2 = true → key_before k2 k3 = true → key_before k1 k3 = true.
Proof.
  unfold key_before.
  destruct (array_index k1) as [n1|], (array_index k2) as [n2|],
    (array_index k3) as [n3|]; try done.
  intros H1%N.ltb_lt H2%N.ltb_lt. apply N.ltb_lt. lia.
Qed.

Lemma obj_has_true o k : obj_has o k = true ↔ k ∈ obj_keys o.
Proof. unfold obj_has. apply bool_decide_eq_true. Qed.

Lemma obj_has_false o k : obj_has o k = false ↔ k ∉ obj_keys o.
Proof. unfold obj_has. apply bool_decide_eq_false. Qed.

Lemma obj_keys_update k v o : obj_keys (obj_update k v o) = obj_keys o.
Proof.
  induction o as [|[k' v'] r IH]; [done|]. simpl.
  case_decide; simpl; [done|]. f_equal. apply IH.
Qed.

Lemma obj_place_split k v o :
  ∃ pre post, o = pre ++ post ∧ obj_place k v o = pre ++ (k, v) :: post
    ∧ Forall (λ k', key_before k k' = false) (obj_keys pre)
    ∧ match post with [] => True | kv :: _ => key_before k kv.1 = true end.
Proof.
  induction o as [|[k' v'] r IH]; simpl.
  - exists [], []. by repeat split.
  - destruct (key_before k k') eqn:Hb.
    + exists [], ((k', v') :: r). by repeat split.
    + destruct IH as (pre & post & -> & -> & Hpre & Hpost).
      exists ((k', v') :: pre), post. repeat split; [|done].
      simpl. by constructor.
Qed.

Lemma obj_keys_place k v o : obj_keys (obj_place k v o) ≡ₚ k :: obj_keys o.
Proof.
  destruct (obj_place_split k v o) as (pre & post & -> & -> & _).
  unfold obj_keys. rewrite !fmap_app, fmap_cons. simpl.
  by rewrite Permutation_middle.
Qed.

Lemma obj_place_snoc k v o :
  Forall (λ k', key_before k k' = false) (obj_keys o) →
  obj_place k v o = o ++ [(k, v)].
Proof.
  induction o as [|[k' v'] r IH]; simpl; [done|].
  intros [Hk Hr]%Forall_cons. simpl in Hk. rewrite Hk. f_equal. by apply IH.
Qed.

Lemma obj_get_None o k : obj_get o k = None ↔ k ∉ obj_keys o.
Proof.
  induction o as [|[k' v'] r IH]; simpl.
  - split; [intros _; apply not_elem_of_nil|done].
  - rewrite not_elem_of_cons. case_decide; subst.
    + split; [done|tauto].
    + rewrite IH. intuition congruence.
Qed.

Lemma obj_get_Some_elem_of o k v : obj_get o k = Some v → (k, v) ∈ o.
Proof.
  induction o as [|[k' v'] r IH]; simpl; [done|].
  case_decide; subst.
  - intros [= ->]. apply elem_of_cons. by left.
  - intros H'. apply elem_of_cons. right. by apply IH.
Qed.

Lemma obj_get_update o k v k' :
  obj_get (obj_update k v o) k' =
    if decide (k = k') then (λ _, v) <$> obj_get o k' else obj_get o k'.
Proof.
  induction o as [|[k0 v0] r IH]; simpl.
  - by case_decide.
  - destruct (decide (k0 = k)) as [->|Hne]; simpl.
    + repeat case_decide; simplify_eq; done.
    + rewrite IH. repeat case_decide; simplify_eq; done.
Qed.

Lemma obj_get_place o k v k' :
  k ∉ obj_keys o →
  obj_get (obj_place k v o) k' =
    if decide (k = k') then Some v else obj_get o k'.
Proof.
  induction o as [|[k0 v0] r IH]; simpl.
  - intros _. by case_decide.
  - intros [Hne Hr]%not_elem_of_cons.
    destruct (key_before k k0); simpl.
    + repeat case_decide; simplify_eq; done.
    + rewrite (IH Hr). repeat case_decide; simplify_eq; done.
Qed.

Lemma enum_ordered_place k v o :
  enum_ordered o → enum_ordered (obj_place k v o).
Proof.
  unfold enum_ordered, obj_keys.
  destruct (obj_place_split k v o) as (pre & post & -> & -> & Hpre & Hpost).
  rewrite !fmap_app, fmap_cons. simpl.
  rewrite !StronglySorted_app, StronglySorted_cons.
  intros (Hcross & Hsp & Hso).
  assert (Hafter : Forall (λ k', key_before k' k = false) post.*1).
  { destruct post as [|[k1 v1] post]; [constructor|]. simpl in *.
    apply StronglySorted_cons in Hso as [Hall _].
    constructor; [by apply key_before_asym|].
    apply Forall_forall. intros q Hq.
    rewrite Forall_forall in Hall. specialize (Hall q Hq). simpl in Hall.
    destruct (key_before q k) eqn:Hqk; [|done].
    by rewrite (key_before_trans _ _ _ Hqk Hpost) in Hall. }
  repeat split; [|done|done|done].
  intros x1 x2 Hx1 [->|Hx2]%elem_of_cons.
  - rewrite Forall_forall in Hpre. by apply Hpre.
  - by apply Hcross.
Qed.

Lemma obj_wf_define k v o : obj_wf o → obj_wf (obj_define k v o).
Proof.
  unfold obj_define, obj_wf. intros [Hnd Hord].
  destruct (obj_has o k) eqn:Hhas.
  - unfold enum_ordered. by rewrite obj_keys_update.
  - apply obj_has_false in Hhas. split; [|by apply enum_ordered_place].
    rewrite obj_keys_place. by constructor.
Qed.

Lemma obj_wf_assign k v o : obj_wf o → obj_wf (obj_assign k v o).
Proof.
  unfold obj_assign. intros Hwf.
  destruct (obj_has o k) eqn:Hhas; [|case_decide; [done|]].
  - generalize (obj_wf_define k v o Hwf). unfold obj_define. by rewrite Hhas.
  - generalize (obj_wf_define k v o Hwf). unfold obj_define. by rewrite Hhas.
Qed.

Lemma obj_wf_empty : obj_wf obj_empty.
Proof. split; constructor. Qed.

(** Copying a well-formed object into a fresh one reproduces it, order
    included: [{ ...o }] is [o]. *)
Lemma obj_spread_id o : obj_wf o → obj_spread o obj_empty = o.
Proof.
  unfold obj_spread, obj_entries.
  induction o as [|[k v] o IH] using rev_ind; [done|].
  intros [Hnd Hord]. unfold enum_ordered, obj_keys in *.
  rewrite fmap_app in Hnd, Hord. simpl in *.
  apply NoDup_app in Hnd as (Hnd1 & Hnd2 & _).
  apply StronglySorted_app in Hord as (Hcross & Hord1 & _).
  rewrite foldl_app. simpl. rewrite IH by done.
  unfold obj_define.
  assert (Hfresh : k ∉ obj_keys o).
  { intros Hin. apply (Hnd2 _ Hin). apply list_elem_of_singleton. done. }
  apply obj_has_false in Hfresh. rewrite Hfresh.
  apply obj_place_snoc, Forall_forall. intros k' Hk'.
  apply Hcross; [done|]. by apply list_elem_of_singleton.
Qed.

End object_facts.


(** ** Seeding the Answer Map *)

Section seeding.
Implicit Types (o : JsObject) (k v : string) (qs : list Question).

Lemma obj_place_perm k v o : obj_place k v o ≡ₚ (k, v) :: o.
Proof.
  destruct (obj_place_split k v o) as (pre & post & -> & -> & _).
  by rewrite Permutation_middle.
Qed.

Lemma obj_update_values (P : string → Prop) k v o :
  P v → Forall (λ kv, P kv.2) o → Forall (λ kv, P kv.2) (obj_update k v o).
Proof.
  intros Hv. induction 1 as [|[k' v'] r Hx Hr IH]; simpl; [constructor|].
  case_decide; constructor; done.
Qed.

Lemma obj_assign_keys k v o k' :
  k' ∈ obj_keys (obj_assign k v o) ↔
    k' ∈ obj_keys o ∨ (k' = k ∧ k ≠ proto_key).
Proof.
  unfold obj_assign. destruct (obj_has o k) eqn:Hhas.
  - rewrite obj_keys_update. apply obj_has_true in Hhas.
    split; [by left|]. intros [?|[-> _]]; done.
  - case_decide as Hp.
    + split; [by left|]. intros [?|[_ ?]]; done.
    + rewrite obj_keys_place, elem_of_cons. naive_solver.
Qed.

Lemma obj_assign_values (P : string → Prop) k v o :
  P v → Forall (λ kv, P kv.2) o → Forall (λ kv, P kv.2) (obj_assign k v o).
Proof.
  intros Hv Ho. unfold obj_assign.
  destruct (obj_has o k); [by apply obj_update_values|].
  case_decide; [done|]. rewrite obj_place_perm. by constructor.
Qed.

Lemma obj_assign_fresh k v o :
  k ∉ obj_keys o → k ≠ proto_key →
  obj_keys (obj_assign k v o) ≡ₚ k :: obj_keys o.
Proof.
  intros Hk%obj_has_false Hp. unfold obj_assign. rewrite Hk.
  rewrite decide_False by done. apply obj_keys_place.
Qed.

Lemma seedAnswers_snoc qs q :
  seedAnswers (qs ++ [q]) = obj_assign (q_id q) "" (seedAnswers qs).
Proof. unfold seedAnswers. by rewrite foldl_app. Qed.

Lemma seedAnswers_wf qs : obj_wf (seedAnswers qs).
Proof.
  induction qs as [|q qs IH] using rev_ind; [apply obj_wf_empty|].
  rewrite seedAnswers_snoc. by apply obj_wf_assign.
Qed.

(** The keys are the question identifiers, [__proto__] excepted. *)
Lemma seedAnswers_keys qs k :
  k ∈ obj_keys (seedAnswers qs) ↔ k ∈ q_id <$> qs ∧ k ≠ proto_key.
Proof.
  induction qs as [|q qs IH] using rev_ind.
  - simpl. split; [by intros ?%elem_of_nil|by intros [?%elem_of_nil _]].
  - rewrite seedAnswers_snoc, obj_assign_keys, IH, fmap_app, elem_of_app.
    simpl. rewrite list_elem_of_singleton. naive_solver.
Qed.

Lemma seedAnswers_values qs :
  Forall (λ kv, kv.2 = "") (obj_entries (seedAnswers qs)).
Proof.
  unfold obj_entries. induction qs as [|q qs IH] using rev_ind; [constructor|].
  rewrite seedAnswers_snoc. by apply (obj_assign_values (λ v, v = "")).
Qed.

Lemma seedAnswers_get qs k :
  k ∈ q_id <$> qs → k ≠ proto_key → obj_get (seedAnswers qs) k = Some "".
Proof.
  intros Hin Hp.
  destruct (obj_get (seedAnswers qs) k) as [v|] eqn:Hget.
  - apply obj_get_Some_elem_of in Hget.
    pose proof (seedAnswers_values qs) as Hall.
    rewrite Forall_forall in Hall. by rewrite <- (Hall _ Hget).
  - apply obj_get_None in Hget. exfalso. apply Hget.
    by apply seedAnswers_keys.
Qed.

(** With pairwise distinct identifiers there is one key per question. *)
Lemma seedAnswers_keys_perm qs :
  NoDup (q_id <$> qs) → proto_key ∉ q_id <$> qs →
  obj_keys (seedAnswers qs) ≡ₚ q_id <$> qs.
Proof.
  induction qs as [|q qs IH] using rev_ind; [done|].
  rewrite fmap_app. simpl. intros Hnd Hp.
  apply NoDup_app in Hnd as (Hnd & Hfresh & _).
  rewrite not_elem_of_app, list_elem_of_singleton in Hp.
  destruct Hp as [Hp1 Hp2].
  rewrite seedAnswers_snoc, obj_assign_fresh.
  - rewrite (IH Hnd Hp1). by rewrite Permutation_cons_append.
  - rewrite seedAnswers_keys. intros [Hin _].
    apply (Hfresh _ Hin). by apply list_elem_of_singleton.
  - congruence.
Qed.

Lemma seedAnswers_length qs :
  NoDup (q_id <$> qs) → proto_key ∉ q_id <$> qs →
  length (obj_keys (seedAnswers qs)) = length qs.
Proof.
  intros Hnd Hp. rewrite (seedAnswers_keys_perm qs Hnd Hp).
  by rewrite length_fmap.
Qed.

End seeding.

(** ** Loading an assignment *)

Lemma typed_from_initial (id : string) (w : World) :
  setAssignmentId id (initial_portal, w) = (Return (), (typed id, w)).
Proof. reflexivity. Qed.

Section load_facts.
Variable trim : string → string.
Variable getAssignment : string → M World Assignment.

Local Abbreviation load := (fire (handleLoadAssignment trim getAssignment)).

Lemma load_empty_id st w :
  assignmentId st = "" →
  load (st, w) = (Return (), (st, record (EvAlert "Please enter an ID") w)).
Proof.
  intros Hid. unfold fire, handleLoadAssignment. simpl.
  by rewrite bool_decide_eq_true_2.
Qed.

Lemma load_failure st w e w' :
  assignmentId st ≠ "" →
  getAssignment (trim (assignmentId st)) w = (Throw e, w') →
  load (st, w) =
    (Return (),
     ({| step := step st; assignmentId := assignmentId st;
         assignmentData := assignmentData st; answers := answers st;
         feedback := feedback st; loading := false |},
      record (EvAlert "Assignment not found! Check the ID.") w')).
Proof.
  intros Hid Hget. unfold fire, handleLoadAssignment. simpl.
  rewrite bool_decide_eq_false_2 by done.
  unfold bind, try_finally, try_catch, liftW, setLoading, modify. simpl.
  by rewrite Hget.
Qed.

Lemma load_success st w data w' :
  assignmentId st ≠ "" →
  getAssignment (trim (assignmentId st)) w = (Return data, w') →
  load (st, w) =
    (Return (),
     ({| step := 2; assignmentId := assignmentId st;
         assignmentData := Some data;
         answers := seedAnswers (a_questions data);
         feedback := feedback st; loading := false |}, w')).
Proof.
  intros Hid Hget. unfold fire, handleLoadAssignment. simpl.
  rewrite bool_decide_eq_false_2 by done.
  unfold bind, try_finally, try_catch, liftW, setLoading, modify. simpl.
  by rewrite Hget.
Qed.

End load_facts.

(** ** Session store and submission *)

Section submit_facts.
Variable backend : Backend.
Variable JSON_parse : string → Outcome JsValue.

Lemma getCurrentUser_absent w :
  localStorage w !! "user" = None →
  getCurrentUser JSON_parse w = (Return JNull, w).
Proof.
  intros Hget. unfold getCurrentUser, bind, localStorage_getItem.
  by rewrite Hget.
Qed.

Lemma getCurrentUser_empty w :
  localStorage w !! "user" = Some "" →
  getCurrentUser JSON_parse w = (Return JNull, w).
Proof.
  intros Hget. unfold getCurrentUser, bind, localStorage_getItem.
  by rewrite Hget.
Qed.

Lemma getCurrentUser_present w s :
  localStorage w !! "user" = Some s → s ≠ "" →
  getCurrentUser JSON_parse w = (JSON_parse s, w).
Proof.
  intros Hget Hs. unfold getCurrentUser, bind, localStorage_getItem.
  rewrite Hget. by rewrite bool_decide_eq_false_2.
Qed.

(** Whenever the session store yields a falsy value, [handleSubmit]
    stops at the guard. *)
Lemma submit_blocked st w user :
  getCurrentUser JSON_parse w = (Return user, w) →
  js_truthy user = false →
  fire (handleSubmit backend JSON_parse) (st, w)
    = (Return (), (st, record (EvAlert "Please login first") w)).
Proof.
  intros Huser Hfalsy. unfold fire, handleSubmit, bind, liftW. simpl.
  rewrite Huser, Hfalsy. reflexivity.
Qed.


End submit_facts.

(** ** Properties of the load step *)

(** C1 (amended). When [getAssignment] succeeds with an assignment none of
    whose question identifiers is [__proto__], the load step returns
    normally and leaves an Answer Map whose keys are exactly the question
    identifiers, without repetition, each mapped to the empty string. The
    map has exactly N keys when the N identifiers are pairwise distinct,
    and it is the empty map when there is no question. *)
Theorem load_seeds_answer_map
    (trim : string → string) (getAssignment : string → M World Assignment)
    (st : PortalState) (w : World) (data : Assignment) (w' : World) :
  assignmentId st ≠ "" →
  getAssignment (trim (assignmentId st)) w = (Return data, w') →
  proto_key ∉ q_id <$> a_questions data →
  ∃ st',
    fire (handleLoadAssignment trim getAssignment) (st, w)
      = (Return (), (st', w'))
    ∧ assignmentData st' = Some data
    ∧ (∀ k, k ∈ obj_keys (answers st') ↔ k ∈ q_id <$> a_questions data)
    ∧ NoDup (obj_keys (answers st'))
    ∧ (∀ k, k ∈ q_id <$> a_questions data →
            obj_get (answers st') k = Some "")
    ∧ (NoDup (q_id <$> a_questions data) →
         length (obj_keys (answers st')) = length (a_questions data))
    ∧ (a_questions data = [] → answers st' = obj_empty).
Proof.
  intros Hid Hget Hproto. eexists. split; [by apply load_success|].
  simpl. split; [done|]. split; [|split; [|split; [|split]]].
  - intros k. rewrite seedAnswers_keys. split; [tauto|].
    intros Hk. split; [done|]. by intros ->.
  - apply seedAnswers_wf.
  - intros k Hk. apply seedAnswers_get; [done|]. by intros ->.
  - intros Hnd. by apply seedAnswers_length.
  - by intros ->.
Qed.

Lemma load_seeds_answer_map_witness :
  ∃ st',
    fire (handleLoadAssignment no_trim (getAssignment offline_backend))
         (typed "X", fresh_world)
      = (Return (), (st', record (EvHttp (GetAssignment "X")) fresh_world))
    ∧ obj_keys (answers st') = ["q1"; "q2"]
    ∧ length (obj_keys (answers st')) = 2%nat.
Proof.
  destruct (load_seeds_answer_map no_trim (getAssignment offline_backend)
              (typed "X") fresh_world essay
              (record (EvHttp (GetAssignment "X")) fresh_world))
    as (st' & Hrun & _ & _ & _ & _ & Hlen & _).
  - simpl. discriminate.
  - reflexivity.
  - apply (bool_decide_unpack _). vm_compute. exact I.
  - exists st'. split; [exact Hrun|].
    rewrite load_success with (data := essay)
      (w' := record (EvHttp (GetAssignment "X")) fresh_world) in Hrun;
      [|simpl; discriminate|reflexivity].
    injection Hrun as <-. split; reflexivity.
Defined.

(** C1, as stated, fails: an assignment with two questions that share the
    identifier [q1] is loaded into an Answer Map with a single key. *)
Lemma load_twin_questions_one_key :
  ∃ st' w',
    fire (handleLoadAssignment no_trim (getAssignment offline_backend))
         (typed "D", fresh_world) = (Return (), (st', w'))
    ∧ assignmentData st' = Some twin_quiz
    ∧ length (a_questions twin_quiz) = 2%nat
    ∧ answers st' = [("q1", "")]
    ∧ length (obj_keys (answers st')) = 1%nat.
Proof. do 2 eexists. split; [reflexivity|]. by repeat split. Qed.

(** C8. In the Idle/Search state (step 1): with an empty identifier the
    load step only raises an alert and changes nothing; when
    [getAssignment] fails, whatever the error, the portal stays at step 1,
    the held assignment data and Answer Map are untouched and an alert is
    raised; when it succeeds, the portal moves to step 2 (Loaded) holding
    the fetched assignment and its seeded Answer Map; and step 2 is reached
    only if the identifier was not empty and [getAssignment] succeeded. *)
Theorem load_transitions
    (trim : string → string) (getAssignment : string → M World Assignment)
    (st : PortalState) (w : World) :
  step st = 1 →
  let after := (fire (handleLoadAssignment trim getAssignment) (st, w)).2 in
  (assignmentId st = "" →
     after = (st, record (EvAlert "Please enter an ID") w))
  ∧ (∀ e w',
       assignmentId st ≠ "" →
       getAssignment (trim (assignmentId st)) w = (Throw e, w') →
       step after.1 = 1
       ∧ assignmentData after.1 = assignmentData st
       ∧ answers after.1 = answers st
       ∧ after.2 = record (EvAlert "Assignment not found! Check the ID.") w')
  ∧ (∀ data w',
       assignmentId st ≠ "" →
       getAssignment (trim (assignmentId st)) w = (Return data, w') →
       step after.1 = 2
       ∧ assignmentData after.1 = Some data
       ∧ answers after.1 = seedAnswers (a_questions data)
       ∧ after.2 = w')
  ∧ (step after.1 = 2 →
       assignmentId st ≠ ""
       ∧ ∃ data w',
           getAssignment (trim (assignmentId st)) w = (Return data, w')).
Proof.
  intros Hidle after. subst after. split; [|split; [|split]].
  - intros Hid. by rewrite load_empty_id.
  - intros e w' Hid Hget. by rewrite (load_failure _ _ _ _ e w').
  - intros data w' Hid Hget. by rewrite (load_success _ _ _ _ data w').
  - intros Hloaded.
    destruct (decide (assignmentId st = "")) as [Hid|Hid].
    { rewrite load_empty_id in Hloaded by done. simpl in Hloaded.
      rewrite Hidle in Hloaded. discriminate. }
    split; [done|].
    destruct (getAssignment (trim (assignmentId st)) w)
      as [[data|e] w'] eqn:Hget.
    + by exists data, w'.
    + rewrite (load_failure _ _ _ _ e w') in Hloaded by done.
      simpl in Hloaded. rewrite Hidle in Hloaded. discriminate.
Qed.

Lemma load_transitions_witness :
  (fire (handleLoadAssignment no_trim (getAssignment offline_backend))
        (typed "", fresh_world)).2
    = (typed "", record (EvAlert "Please enter an ID") fresh_world)
  ∧ step (fire (handleLoadAssignment no_trim (getAssignment offline_backend))
            (typed "nowhere", fresh_world)).2.1 = 1
  ∧ step (fire (handleLoadAssignment no_trim (getAssignment offline_backend))
            (typed "X", fresh_world)).2.1 = 2.
Proof.
  split; [|split].
  - apply (load_transitions no_trim (getAssignment offline_backend)
             (typed "") fresh_world); reflexivity.
  - eapply (load_transitions no_trim (getAssignment offline_backend)
              (typed "nowhere") fresh_world);
      [reflexivity|simpl; discriminate|reflexivity].
  - eapply (load_transitions no_trim (getAssignment offline_backend)
              (typed "X") fresh_world);
      [reflexivity|simpl; discriminate|reflexivity].
Defined.

(** C2. Whatever the controller state, when browser storage holds no user
    record, [handleSubmit] raises the login alert and nothing else: the
    state (assignment data, answers, feedback, loading flag, step) is
    unchanged, and the trace gains no HTTP request, so the grading
    endpoint is not called. *)
Theorem submit_without_session
    (backend : Backend) (JSON_parse : string → Outcome JsValue)
    (st : PortalState) (w : World) :
  localStorage w !! "user" = None →
  ∃ w',
    fire (handleSubmit backend JSON_parse) (st, w) = (Return (), (st, w'))
    ∧ trace w' = trace w ++ [EvAlert "Please login first"]
    ∧ List.filter is_http (trace w') = List.filter is_http (trace w)
    ∧ localStorage w' = localStorage w.
Proof.
  intros Habsent. eexists. split.
  - apply (submit_blocked backend JSON_parse st w JNull); [|done].
    by apply getCurrentUser_absent.
  - simpl. rewrite List.filter_app. simpl. by rewrite app_nil_r.
Qed.

Lemma submit_without_session_witness :
  ∃ w',
    fire (handleSubmit offline_backend toy_JSON_parse)
         (typed "X", fresh_world) = (Return (), (typed "X", w'))
    ∧ trace w' = [EvAlert "Please login first"].
Proof.
  destruct (submit_without_session offline_backend toy_JSON_parse
              (typed "X") fresh_world) as (w' & Hrun & Htrace & _).
  - reflexivity.
  - exists w'. split; [exact Hrun|exact Htrace].
Defined.

(** C10. [getCurrentUser] returns [null], without throwing, when storage
    has no entry under [user] (and likewise for an empty entry); for any
    other stored string it yields what [JSON.parse] yields for it. Storage
    and trace are left as they were. *)
Theorem getCurrentUser_reads_session
    (JSON_parse : string → Outcome JsValue) (w : World) :
  (localStorage w !! "user" = None →
     getCurrentUser JSON_parse w = (Return JNull, w))
  ∧ (localStorage w !! "user" = Some "" →
     getCurrentUser JSON_parse w = (Return JNull, w))
  ∧ (∀ s, localStorage w !! "user" = Some s → s ≠ "" →
     getCurrentUser JSON_parse w = (JSON_parse s, w)).
Proof.
  split; [|split].
  - apply getCurrentUser_absent.
  - apply getCurrentUser_empty.
  - intros s. apply getCurrentUser_present.
Qed.

Lemma getCurrentUser_reads_session_witness :
  getCurrentUser toy_JSON_parse fresh_world = (Return JNull, fresh_world)
  ∧ getCurrentUser toy_JSON_parse logged_in_world
      = (Return (JObj [("id", JNum 7)]), logged_in_world).
Proof.
  split.
  - apply (proj1 (getCurrentUser_reads_session toy_JSON_parse fresh_world)).
    reflexivity.
  - apply (proj2 (proj2 (getCurrentUser_reads_session toy_JSON_parse
                           logged_in_world)) stored_user);
      [reflexivity|discriminate].
Defined.

(** ** Properties of the API client *)

Section api_facts.
Variable backend : Backend.

(** [generateContent] and [autoGradeSubmission] return for every outcome
    of the request. *)
Lemma generateContent_returns topic type difficulty w :
  ∃ questions w',
    generateContent backend topic type difficulty w = (Return questions, w').
Proof.
  unfold generateContent, try_catch, bind, axios, bind, emit, modify. simpl.
  destruct (generate_endpoint backend _ _ _ _); by do 2 eexists.
Qed.

Lemma autoGradeSubmission_returns assignmentId studentId answerText w :
  ∃ result w',
    autoGradeSubmission backend assignmentId studentId answerText w
      = (Return result, w').
Proof.
  unfold autoGradeSubmission, try_catch, bind, axios, bind, emit, modify.
  simpl. destruct (grade_endpoint backend _ _ _ _); by do 2 eexists.
Qed.

(** A resolved request is passed through unchanged. *)
Lemma generateContent_success topic type difficulty w questions :
  generate_endpoint backend
    (trace w ++ [EvHttp (PostGenerate topic type difficulty)])
    topic type difficulty = Return questions →
  generateContent backend topic type difficulty w
    = (Return questions, record (EvHttp (PostGenerate topic type difficulty)) w).
Proof.
  intros Hresp.
  unfold generateContent, try_catch, bind, axios, bind, emit, modify. simpl.
  by rewrite Hresp.
Qed.

Lemma autoGradeSubmission_success assignmentId studentId answerText w result :
  grade_endpoint backend
    (trace w ++ [EvHttp (PostGrade assignmentId studentId answerText)])
    assignmentId studentId answerText = Return result →
  autoGradeSubmission backend assignmentId studentId answerText w
    = (Return result,
       record (EvHttp (PostGrade assignmentId studentId answerText)) w).
Proof.
  intros Hresp.
  unfold autoGradeSubmission, try_catch, bind, axios, bind, emit, modify.
  simpl. by rewrite Hresp.
Qed.
End api_facts.

(** C4. For every identifier, [getAssignment] issues one request and then
    either returns the Assignment the backend holds under that identifier
    or, when the backend does not recognize it, fails with the NotFound
    error (HTTP 404). *)
Theorem getAssignment_found_or_not_found
    (backend : Backend) (id : string) (w : World) :
  let w' := record (EvHttp (GetAssignment id)) w in
  (∀ a, known_assignments backend !! id = Some a →
        getAssignment backend id w = (Return a, w'))
  ∧ (known_assignments backend !! id = None →
        getAssignment backend id w = (Throw (HttpError 404), w'))
  ∧ ((∃ a, getAssignment backend id w = (Return a, w'))
     ∨ getAssignment backend id w = (Throw (HttpError 404), w')).
Proof.
  unfold getAssignment, axios, bind, emit, modify. simpl.
  destruct (known_assignments backend !! id) as [a|]; repeat split;
    try done; try (intros ? [= <-]; done); eauto.
Qed.

Lemma getAssignment_found_or_not_found_witness :
  getAssignment offline_backend "X" fresh_world
    = (Return essay, record (EvHttp (GetAssignment "X")) fresh_world)
  ∧ getAssignment offline_backend "nowhere" fresh_world
    = (Throw (HttpError 404),
       record (EvHttp (GetAssignment "nowhere")) fresh_world).
Proof.
  split.
  - apply (proj1 (getAssignment_found_or_not_found offline_backend "X"
                    fresh_world)).
    reflexivity.
  - apply (proj1 (proj2 (getAssignment_found_or_not_found offline_backend
                           "nowhere" fresh_world))).
    reflexivity.
Defined.

(** C5. Whatever the topic, type and difficulty, when the HTTP request
    fails, [generateContent] logs the error and returns the empty
    sequence; no exception reaches the caller. The earlier revision of
    the client does the same. *)
Theorem generateContent_failure
    (backend : Backend) (topic : string) (type : AssignmentType)
    (difficulty : Difficulty) (w : World) (e : JsError) :
  generate_endpoint backend
    (trace w ++ [EvHttp (PostGenerate topic type difficulty)])
    topic type difficulty = Throw e →
  generateContent backend topic type difficulty w
    = (Return [],
       record (EvConsoleError "API Error generating content:" e)
         (record (EvHttp (PostGenerate topic type difficulty)) w))
  ∧ Legacy.generateContent backend topic type difficulty w
    = (Return [],
       record (EvConsoleError "API Error" e)
         (record (EvHttp (PostGenerate topic type difficulty)) w)).
Proof.
  intros Hresp.
  unfold generateContent, Legacy.generateContent, try_catch, bind, axios,
    bind, emit, modify.
  simpl. by rewrite Hresp.
Qed.

Lemma generateContent_failure_witness :
  (generateContent offline_backend "Photosynthesis" MCQ EASY fresh_world).1
    = Return [].
Proof.
  rewrite (proj1 (generateContent_failure offline_backend "Photosynthesis"
                    MCQ EASY fresh_world NetworkError eq_refl)).
  reflexivity.
Defined.

(** C6. Whatever the arguments, when the HTTP request fails,
    [autoGradeSubmission] logs the error and returns the sentinel feedback
    with score 0 and the fixed message; no exception reaches the caller.
    The earlier revision of the client does the same with its own fixed
    message. *)
Theorem autoGradeSubmission_failure
    (backend : Backend) (assignmentId : string) (studentId : JsValue)
    (answerText : string) (w : World) (e : JsError) :
  grade_endpoint backend
    (trace w ++ [EvHttp (PostGrade assignmentId studentId answerText)])
    assignmentId studentId answerText = Throw e →
  autoGradeSubmission backend assignmentId studentId answerText w
    = (Return {| Feedback.score := 0;
                 Feedback.feedback := "Error connecting to grading service." |},
       record (EvConsoleError "Grading Error:" e)
         (record (EvHttp (PostGrade assignmentId studentId answerText)) w)).
Proof.
  intros Hresp.
  unfold autoGradeSubmission, try_catch, bind, axios, bind, emit, modify.
  simpl. by rewrite Hresp.
Qed.

Lemma autoGradeSubmission_failure_witness :
  (autoGradeSubmission offline_backend "X" (JNum 7) "Q1: A" fresh_world).1
    = Return {| Feedback.score := 0;
                Feedback.feedback := "Error connecting to grading service." |}.
Proof.
  rewrite (autoGradeSubmission_failure offline_backend "X" (JNum 7) "Q1: A"
             fresh_world (HttpError 503) eq_refl).
  reflexivity.
Defined.

(** The same holds of the earlier revision, whose request carries a
    question, an answer and a rubric. *)
Lemma legacy_autoGradeSubmission_failure
    (backend : Backend) (question answer rubric : string) (w : World)
    (e : JsError) :
  grade_endpoint_legacy backend
    (trace w ++ [EvHttp (PostGradeLegacy question answer rubric)])
    question answer rubric = Throw e →
  Legacy.autoGradeSubmission backend question answer rubric w
    = (Return {| Feedback.score := 0;
                 Feedback.feedback := "Error connecting to AI grading service." |},
       record (EvConsoleError "Grading Error" e)
         (record (EvHttp (PostGradeLegacy question answer rubric)) w)).
Proof.
  intros Hresp.
  unfold Legacy.autoGradeSubmission, try_catch, bind, axios, bind, emit,
    modify.
  simpl. by rewrite Hresp.
Qed.

(** ** Flattening the Answer Map *)

Lemma imap_numbered_lines (n : nat) (entries : list (string * string)) :
  imap (λ idx '(qId, ans), "Q" +:+ pretty (idx + n)%nat +:+ ": " +:+ ans) entries
    = numbered_lines n entries.*2.
Proof.
  revert n. induction entries as [|[qId ans] rest IH]; intros n; [done|].
  rewrite imap_cons. simpl. f_equal. rewrite <- IH.
  apply imap_ext. intros idx [qId' ans'] _. simpl.
  replace (idx + S n)%nat with (S (idx + n)) by lia. reflexivity.
Qed.

Lemma concat_join_blank_lines (lines : list string) :
  String.concat blank_line lines = join_blank_lines lines.
Proof.
  induction lines as [|line [|line' rest] IH]; [done..|].
  change (String.concat blank_line (line :: line' :: rest))
    with (line +:+ blank_line +:+ String.concat blank_line (line' :: rest)).
  by rewrite IH.
Qed.

Lemma numbered_lines_lookup (n i : nat) (answers : list string) (ans : string) :
  answers !! i = Some ans →
  numbered_lines n answers !! i = Some ("Q" +:+ pretty (n + i)%nat +:+ ": " +:+ ans).
Proof.
  revert n i. induction answers as [|a rest IH]; intros n [|i]; try done.
  - intros [= ->]. simpl. by rewrite Nat.add_0_r.
  - simpl. intros Hi. rewrite (IH (S n) i Hi).
    by replace (S n + i)%nat with (n + S i)%nat by lia.
Qed.

Lemma numbered_lines_length (n : nat) (answers : list string) :
  length (numbered_lines n answers) = length answers.
Proof.
  revert n. induction answers as [|a rest IH]; intros n; [done|].
  simpl. by rewrite IH.
Qed.

(** C3. For every Answer Map, [formattedSubmission] is the text made of
    one line [Q<i>: <answer>] per entry, in the order in which the map
    enumerates its entries, numbered from 1 and separated by blank lines:
    there are as many lines as entries, and the line at position [i]
    (counting from 0) carries number [i + 1] and the answer of entry [i].
    In particular [{ q1: "A", q2: "B" }] flattens to the two lines
    [Q1: A] and [Q2: B] with one blank line between them. *)
Theorem formattedSubmission_flattens (answers : JsObject) :
  let lines := numbered_lines 1 (obj_entries answers).*2 in
  formattedSubmission answers = join_blank_lines lines
  ∧ length lines = length (obj_entries answers)
  ∧ (∀ i qId ans,
       obj_entries answers !! i = Some (qId, ans) →
       lines !! i = Some ("Q" +:+ pretty (i + 1)%nat +:+ ": " +:+ ans))
  ∧ formattedSubmission (obj_define "q2" "B" (obj_define "q1" "A" obj_empty))
      = "Q1: A" +:+ String char_nl (String char_nl "Q2: B").
Proof.
  simpl. split; [|split; [|split]].
  - unfold formattedSubmission.
    by rewrite concat_join_blank_lines, imap_numbered_lines.
  - by rewrite numbered_lines_length, length_fmap.
  - intros i qId ans Hi.
    rewrite (numbered_lines_lookup 1 i _ ans).
    + by replace (1 + i)%nat with (i + 1)%nat by lia.
    + by rewrite list_lookup_fmap, Hi.
  - reflexivity.
Qed.

(** ** Filtering the assignment list *)

Lemma append_String (c : ascii) (t s : string) :
  String c t +:+ s = String c (t +:+ s).
Proof. reflexivity. Qed.

Lemma append_empty (s : string) : "" +:+ s = s.
Proof. reflexivity. Qed.

Lemma prefix_occurs (t s : string) :
  String.prefix t s = true ↔ ∃ after, s = t +:+ after.
Proof.
  revert s. induction t as [|c t IH]; intros s.
  - split; [intros _; by exists s|by destruct s].
  - destruct s as [|c' s]; cbn [String.prefix].
    + split; [done|]. intros [after Heq]. discriminate.
    + destruct (Ascii.ascii_dec c c') as [->|Hne].
      * rewrite IH. split; intros [after Heq]; exists after;
          rewrite append_String in *; congruence.
      * split; [done|]. intros [after Heq]. rewrite append_String in Heq.
        congruence.
Qed.

(** [includes] decides occurrence as a contiguous substring. *)
Lemma includes_occurs (s t : string) : includes s t = true ↔ occurs_in t s.
Proof.
  unfold occurs_in. induction s as [|c s IH]; cbn [includes].
  - destruct (String.prefix t "") eqn:Hp.
    + split; [intros _|done]. apply prefix_occurs in Hp as [after Heq].
      by exists "", after.
    + split; [done|]. intros ([|c b] & after & Heq); [|discriminate].
      rewrite append_empty in Heq.
      assert (String.prefix t "" = true) as Hp'.
      { apply prefix_occurs. by exists after. }
      congruence.
  - destruct (String.prefix t (String c s)) eqn:Hp.
    + split; [intros _|done]. apply prefix_occurs in Hp as [after Heq].
      by exists "", after.
    + rewrite IH. split.
      * intros (before & after & ->). by exists (String c before), after.
      * intros ([|c' before] & after & Heq).
        -- rewrite append_empty in Heq.
           assert (String.prefix t (String c s) = true) as Hp'.
           { apply prefix_occurs. by exists after. }
           congruence.
        -- rewrite append_String in Heq. injection Heq as -> ->.
           by exists before, after.
Qed.

Lemma includes_empty (s : string) : includes s "" = true.
Proof. apply includes_occurs. by exists "", s. Qed.

Lemma filter_keeps_exactly {A} (f : A → bool) (items : list A) :
  keeps_exactly (λ a, f a = true) items (List.filter f items).
Proof.
  induction items as [|a items IH]; simpl; [constructor|].
  destruct (f a) eqn:Hf.
  - by apply keeps_keep.
  - apply keeps_drop; [|done]. by rewrite Hf.
Qed.

Lemma keeps_exactly_ext {A} (P Q : A → Prop) (items kept : list A) :
  (∀ a, P a ↔ Q a) → keeps_exactly P items kept → keeps_exactly Q items kept.
Proof.
  intros HPQ. induction 1 as [|a items kept Ha _ IH|a items kept Ha _ IH].
  - constructor.
  - apply keeps_keep; [by apply HPQ|done].
  - apply keeps_drop; [by rewrite <- HPQ|done].
Qed.

Lemma keeps_exactly_elem_of {A} (P : A → Prop) (items kept : list A) (a : A) :
  keeps_exactly P items kept → a ∈ kept ↔ a ∈ items ∧ P a.
Proof.
  induction 1 as [|b items kept Hb _ IH|b items kept Hb _ IH].
  - split; [by intros ?%elem_of_nil|by intros [?%elem_of_nil _]].
  - rewrite !elem_of_cons, IH. naive_solver.
  - rewrite elem_of_cons, IH. naive_solver.
Qed.

Section filter_facts.
Variable toLowerCase : string → string.

Lemma matchesSearch_spec searchTerm a :
  matchesSearch toLowerCase searchTerm a = true ↔ search_matches toLowerCase searchTerm a.
Proof.
  unfold matchesSearch, search_matches.
  by rewrite orb_true_iff, !includes_occurs.
Qed.

Lemma matchesStatus_spec statusFilter a :
  matchesStatus statusFilter a = true ↔ status_matches statusFilter a.
Proof.
  unfold matchesStatus, status_matches.
  by rewrite orb_true_iff, !bool_decide_eq_true.
Qed.

(** The search ignores the case of the search text. *)
Lemma matchesSearch_case_insensitive t1 t2 a :
  toLowerCase t1 = toLowerCase t2 →
  matchesSearch toLowerCase t1 a = matchesSearch toLowerCase t2 a.
Proof. unfold matchesSearch. by intros ->. Qed.

End filter_facts.

Lemma filteredAssignments_keeps (toLowerCase : string → string)
    (assignments : list Assignment) (searchTerm statusFilter : string) :
  keeps_exactly
    (λ a, search_matches toLowerCase searchTerm a ∧ status_matches statusFilter a)
    assignments
    (filteredAssignments toLowerCase assignments searchTerm statusFilter).
Proof.
  unfold filteredAssignments.
  eapply keeps_exactly_ext; [|apply filter_keeps_exactly].
  intros a. simpl.
  by rewrite andb_true_iff, matchesSearch_spec, matchesStatus_spec.
Qed.

(** A Draft item that matches the search text is listed exactly under the
    status selections "Draft" and "All". *)
Lemma draft_item_listed (toLowerCase : string → string)
    (assignments : list Assignment) (searchTerm statusFilter : string)
    (a : Assignment) :
  a ∈ assignments → a_status a = Draft →
  search_matches toLowerCase searchTerm a →
  a ∈ filteredAssignments toLowerCase assignments searchTerm statusFilter
    ↔ statusFilter = "All" ∨ statusFilter = "Draft".
Proof.
  intros Hin Hdraft Hsearch.
  rewrite (keeps_exactly_elem_of _ _ _ a
             (filteredAssignments_keeps toLowerCase assignments searchTerm
                statusFilter)).
  unfold status_matches. rewrite Hdraft. simpl. naive_solver.
Qed.

(** C7. Provided lower-casing the empty text gives the empty text:
    with empty search text and status "All" the filter returns the
    collection unchanged; and for any search text and status selection the
    filtered view is the collection with exactly those items removed that
    fail one of the two predicates, so that an item is listed if and only
    if it belongs to the collection, the lower-cased search text occurs in
    its lower-cased title or subject, and the selection is "All" or equals
    its status. *)
Theorem filteredAssignments_spec (toLowerCase : string → string)
    (assignments : list Assignment) (searchTerm statusFilter : string) :
  toLowerCase "" = "" →
  filteredAssignments toLowerCase assignments "" "All" = assignments
  ∧ keeps_exactly
      (λ a, search_matches toLowerCase searchTerm a
            ∧ status_matches statusFilter a)
      assignments
      (filteredAssignments toLowerCase assignments searchTerm statusFilter)
  ∧ (∀ a,
       a ∈ filteredAssignments toLowerCase assignments searchTerm statusFilter
       ↔ a ∈ assignments
         ∧ (occurs_in (toLowerCase searchTerm) (toLowerCase (a_title a))
            ∨ occurs_in (toLowerCase searchTerm) (toLowerCase (a_subject a)))
         ∧ (statusFilter = "All" ∨ status_str (a_status a) = statusFilter)).
Proof.
  intros Hempty. split; [|split].
  - unfold filteredAssignments.
    assert (∀ a, matchesSearch toLowerCase "" a && matchesStatus "All" a = true)
      as Hkeep.
    { intros a. unfold matchesSearch, matchesStatus.
      by rewrite Hempty, includes_empty. }
    induction assignments as [|a rest IH]; [done|].
    cbn [List.filter]. rewrite Hkeep. by f_equal.
  - apply filteredAssignments_keeps.
  - intros a.
    apply (keeps_exactly_elem_of _ _ _ a
             (filteredAssignments_keeps toLowerCase assignments searchTerm
                statusFilter)).
Qed.

Lemma filteredAssignments_spec_witness :
  filteredAssignments ascii_toLowerCase MOCK_ASSIGNMENTS "" "All"
    = MOCK_ASSIGNMENTS
  ∧ (a_id <$> filteredAssignments ascii_toLowerCase MOCK_ASSIGNMENTS
                "BIO" "Published") = ["1"]
  ∧ filteredAssignments ascii_toLowerCase MOCK_ASSIGNMENTS "BIO" "Draft" = [].
Proof.
  split; [|split; reflexivity].
  apply (filteredAssignments_spec ascii_toLowerCase MOCK_ASSIGNMENTS "" "All").
  reflexivity.
Defined.

(** ** Editing answers *)

Lemma handleAnswerChange_run (questionId value : string) (st : PortalState)
    (w : World) :
  handleAnswerChange questionId value (st, w) =
    (Return (),
     ({| step := step st; assignmentId := assignmentId st;
         assignmentData := assignmentData st;
         answers := obj_define questionId value (obj_spread (answers st) obj_empty);
         feedback := feedback st; loading := loading st |}, w)).
Proof. reflexivity. Qed.

(** On a key the map already has, the update replaces the value in place. *)
Lemma obj_define_existing (k v : string) (o : JsObject) :
  obj_wf o → k ∈ obj_keys o →
  obj_define k v (obj_spread o obj_empty) = obj_update k v o.
Proof.
  intros Hwf Hk. rewrite obj_spread_id by done.
  unfold obj_define. by rewrite (proj2 (obj_has_true o k) Hk).
Qed.

(** The handler has no guard of its own: on a key the map lacks, the
    update adds that key. *)
Lemma obj_define_missing (k v : string) (o : JsObject) :
  obj_wf o → k ∉ obj_keys o →
  obj_keys (obj_define k v (obj_spread o obj_empty)) ≡ₚ k :: obj_keys o.
Proof.
  intros Hwf Hk. rewrite obj_spread_id by done.
  unfold obj_define. rewrite (proj2 (obj_has_false o k) Hk).
  apply obj_keys_place.
Qed.

Lemma obj_wf_update (k v : string) (o : JsObject) :
  obj_wf o → obj_wf (obj_update k v o).
Proof. unfold obj_wf, enum_ordered. by rewrite obj_keys_update. Qed.

(** As long as every question identifier is a key of the Answer Map, the
    edits coming from the rendered inputs leave the keys, their order, the
    held assignment, the step and the world as they are. *)
Lemma editAnswers_preserves_keys (data : Assignment)
    (edits : list (nat * string)) (st : PortalState) (w : World) :
  assignmentData st = Some data →
  obj_wf (answers st) →
  (∀ q, q ∈ a_questions data → q_id q ∈ obj_keys (answers st)) →
  let after := editAnswers edits (st, w) in
  obj_keys (answers after.1) = obj_keys (answers st)
  ∧ assignmentData after.1 = Some data
  ∧ step after.1 = step st
  ∧ after.2 = w.
Proof.
  revert st. induction edits as [|[index value] edits IH]; intros st Hdata Hwf Hids.
  { by repeat split. }
  unfold editAnswers. cbn [foldl].
  change (foldl _ ?s edits) with (editAnswers edits s).
  unfold fire, onAnswerInput. cbn [fst snd].
  case_bool_decide as Hstep; [|destruct st; by apply IH].
  rewrite Hdata.
  destruct (a_questions data !! index) as [q|] eqn:Hq;
    [|destruct st; by apply IH].
  rewrite handleAnswerChange_run. cbn [snd].
  assert (q_id q ∈ obj_keys (answers st)) as Hk.
  { apply Hids. by eapply list_elem_of_lookup_2. }
  rewrite obj_define_existing by done.
  match goal with |- context [editAnswers edits (?s, w)] =>
    destruct (IH s) as (Hkeys & Hd & Hs & Hw) end.
  - done.
  - by apply obj_wf_update.
  - intros q' Hq'. simpl. rewrite obj_keys_update. by apply Hids.
  - simpl in *. rewrite obj_keys_update in Hkeys. by repeat split.
Qed.

(** Hence, after an assignment is loaded none of whose question
    identifiers is [__proto__], no sequence of edits adds or removes a
    key. *)
Lemma loaded_edits_preserve_keys
    (trim : string → string) (getAssignment : string → M World Assignment)
    (st : PortalState) (w : World) (data : Assignment) (w' : World)
    (edits : list (nat * string)) :
  assignmentId st ≠ "" →
  getAssignment (trim (assignmentId st)) w = (Return data, w') →
  proto_key ∉ q_id <$> a_questions data →
  let loaded := (fire (handleLoadAssignment trim getAssignment) (st, w)).2 in
  obj_keys (answers (editAnswers edits loaded).1) = obj_keys (answers loaded.1)
  ∧ ∀ k, k ∈ obj_keys (answers (editAnswers edits loaded).1)
         ↔ k ∈ q_id <$> a_questions data.
Proof.
  intros Hid Hget Hproto loaded. subst loaded.
  rewrite (load_success _ _ _ _ data w') by done. cbn [snd].
  match goal with |- context [editAnswers edits (?s, w')] =>
    destruct (editAnswers_preserves_keys data edits s w') as (Hkeys & _) end.
  - done.
  - apply seedAnswers_wf.
  - intros q Hq. simpl. apply seedAnswers_keys. split.
    + apply list_elem_of_fmap. by exists q.
    + intros Heq. apply Hproto. rewrite <- Heq.
      apply list_elem_of_fmap. by exists q.
  - split; [done|]. intros k. rewrite Hkeys. simpl.
    rewrite seedAnswers_keys. split; [tauto|].
    intros Hk. split; [done|]. by intros ->.
Qed.

(** C9 fails on the code. The only question of [proto_quiz] has the
    identifier [__proto__]. Loading seeds its Answer Map by assignment,
    which the inherited [__proto__] setter swallows: the map has no key.
    The first edit of that question's input then writes through a computed
    property of an object literal, which defines an own property: the map
    has gained the key [__proto__]. *)
Theorem proto_key_added_after_load :
  let loaded :=
    (fire (handleLoadAssignment no_trim (getAssignment offline_backend))
          (typed "P", fresh_world)).2 in
  let edited := editAnswers [(0%nat, "my answer")] loaded in
  step loaded.1 = 2
  ∧ assignmentData loaded.1 = Some proto_quiz
  ∧ (q_id <$> a_questions proto_quiz) = ["__proto__"]
  ∧ obj_keys (answers loaded.1) = []
  ∧ obj_keys (answers edited.1) = ["__proto__"]
  ∧ obj_get (answers edited.1) "__proto__" = Some "my answer".
Proof. simpl. by repeat split. Qed.

(** ** The earlier revision of the portal *)

Section legacy_facts.
Variable backend : Backend.
Variable JSON_parse : string → Outcome JsValue.
Variable getAssignment : string → M World Assignment.

Lemma legacy_submit_without_session (st : LegacyPortal.State) (w : World) :
  localStorage w !! "user" = None →
  LegacyPortal.handleSubmit backend JSON_parse st (st, w)
    = (Return (), (st, record (EvAlert "Please login first") w)).
Proof.
  intros Habsent. unfold LegacyPortal.handleSubmit, bind, liftW.
  by rewrite getCurrentUser_absent.
Qed.

Lemma legacy_load_empty_id (st : LegacyPortal.State) (w : World) :
  LegacyPortal.assignmentId st = "" →
  LegacyPortal.handleLoadAssignment getAssignment st (st, w)
    = (Return (), (st, record (EvAlert "Please enter an ID") w)).
Proof.
  intros Hid. unfold LegacyPortal.handleLoadAssignment.
  by rewrite bool_decide_eq_true_2.
Qed.

Lemma legacy_load_failure (st : LegacyPortal.State) (w : World) e w' :
  LegacyPortal.assignmentId st ≠ "" →
  getAssignment (LegacyPortal.assignmentId st) w = (Throw e, w') →
  ∃ st',
    LegacyPortal.handleLoadAssignment getAssignment st (st, w)
      = (Return (),
         (st', record (EvAlert "Assignment not found! Check the ID.") w'))
    ∧ LegacyPortal.step st' = LegacyPortal.step st
    ∧ LegacyPortal.assignmentData st' = LegacyPortal.assignmentData st
    ∧ LegacyPortal.answer st' = LegacyPortal.answer st.
Proof.
  intros Hid Hget. unfold LegacyPortal.handleLoadAssignment.
  rewrite bool_decide_eq_false_2 by done.
  unfold bind, try_finally, try_catch, liftW, LegacyPortal.setLoading,
    modify.
  simpl. rewrite Hget. by eexists.
Qed.

Lemma legacy_load_success (st : LegacyPortal.State) (w : World) data w' :
  LegacyPortal.assignmentId st ≠ "" →
  getAssignment (LegacyPortal.assignmentId st) w = (Return data, w') →
  ∃ st',
    LegacyPortal.handleLoadAssignment getAssignment st (st, w)
      = (Return (), (st', w'))
    ∧ LegacyPortal.step st' = 2
    ∧ LegacyPortal.assignmentData st' = Some data.
Proof.
  intros Hid Hget. unfold LegacyPortal.handleLoadAssignment.
  rewrite bool_decide_eq_false_2 by done.
  unfold bind, try_finally, try_catch, liftW, LegacyPortal.setLoading,
    modify.
  simpl. rewrite Hget. by eexists.
Qed.

End legacy_facts.

(** ** More on the assignment list *)

Lemma append_assoc (a b c : string) : (a +:+ b) +:+ c = a +:+ b +:+ c.
Proof.
  induction a as [|x a IH]; [done|].
  by rewrite !append_String, IH.
Qed.

Lemma occurs_in_trans (a b c : string) :
  occurs_in a b → occurs_in b c → occurs_in a c.
Proof.
  intros (b1 & b2 & ->) (c1 & c2 & ->).
  exists (c1 +:+ b1), (b2 +:+ c2). by rewrite !append_assoc.
Qed.

Lemma filter_sublist_impl {A} (f g : A → bool) (l : list A) :
  (∀ a, f a = true → g a = true) →
  sublist (List.filter f l) (List.filter g l).
Proof.
  intros Himpl. induction l as [|a l IH]; simpl; [constructor|].
  destruct (f a) eqn:Hf.
  - rewrite (Himpl a Hf). by constructor.
  - destruct (g a); [by constructor|done].
Qed.

Lemma filter_filter_comm {A} (f g : A → bool) (l : list A) :
  List.filter f (List.filter g l) = List.filter g (List.filter f l).
Proof.
  induction l as [|a l IH]; simpl; [done|].
  destruct (f a) eqn:Hf, (g a) eqn:Hg; simpl; rewrite ?Hf, ?Hg, IH; done.
Qed.

Lemma without_keeps (id : string) (items : list Assignment) :
  keeps_exactly (λ a, a_id a ≠ id) items (AssignmentsList.without id items).
Proof.
  eapply keeps_exactly_ext; [|apply filter_keeps_exactly].
  intros a. simpl. by rewrite negb_true_iff, bool_decide_eq_false.
Qed.

(** [deleteAssignment]: when the user confirms, the collection loses
    exactly the items with the given identifier, the others staying in
    place; when the user declines, nothing changes. Either way no request
    is sent: the journal gains the dialog alone and the world is not
    touched. *)
Theorem deleteAssignment_removes_locally
    (id : string) (st : AssignmentsList.State) (s : Site) :
  let confirmed := (AssignmentsList.deleteAssignment true id (st, s)).2 in
  let declined := (AssignmentsList.deleteAssignment false id (st, s)).2 in
  keeps_exactly (λ a, a_id a ≠ id)
    (AssignmentsList.assignments st)
    (AssignmentsList.assignments confirmed.1)
  ∧ (∀ a, a ∈ AssignmentsList.assignments confirmed.1
          ↔ a ∈ AssignmentsList.assignments st ∧ a_id a ≠ id)
  ∧ AssignmentsList.searchTerm confirmed.1 = AssignmentsList.searchTerm st
  ∧ AssignmentsList.statusFilter confirmed.1 = AssignmentsList.statusFilter st
  ∧ AssignmentsList.analysisResult confirmed.1
      = AssignmentsList.analysisResult st
  ∧ world confirmed.2 = world s
  ∧ journal confirmed.2 = journal s ++
      [SvConfirm "Are you sure you want to delete this assignment?" true]
  ∧ declined =
      (st, noted (SvConfirm "Are you sure you want to delete this assignment?"
                    false) s).
Proof.
  simpl. split; [apply without_keeps|]. split.
  { intros a. apply (keeps_exactly_elem_of _ _ _ a (without_keeps id _)). }
  by repeat split.
Qed.

(** Deleting commutes with filtering: after a confirmed deletion the rows
    on display are the rows that were on display, minus those with the
    deleted identifier. *)
Theorem deleteAssignment_rows
    (toLowerCase : string → string) (id : string)
    (st : AssignmentsList.State) (s : Site) :
  AssignmentsList.rows toLowerCase
      (AssignmentsList.deleteAssignment true id (st, s)).2.1
    = AssignmentsList.without id (AssignmentsList.rows toLowerCase st).
Proof.
  unfold AssignmentsList.rows, AssignmentsList.without, filteredAssignments.
  simpl. apply filter_filter_comm.
Qed.

(** Narrowing the criteria never adds a row: if the lower-cased search
    text [wide] occurs in the lower-cased search text [narrow], the rows
    for [narrow] are a sub-list of the rows for [wide]; and the rows for
    any status selection are a sub-list of the rows for "All". *)
Theorem filteredAssignments_narrows
    (toLowerCase : string → string) (assignments : list Assignment)
    (wide narrow statusFilter : string) :
  occurs_in (toLowerCase wide) (toLowerCase narrow) →
  sublist (filteredAssignments toLowerCase assignments narrow statusFilter)
          (filteredAssignments toLowerCase assignments wide statusFilter)
  ∧ sublist (filteredAssignments toLowerCase assignments narrow statusFilter)
            (filteredAssignments toLowerCase assignments narrow "All").
Proof.
  intros Hoccurs. split; apply filter_sublist_impl; intros a;
    rewrite !andb_true_iff, !matchesSearch_spec, !matchesStatus_spec.
  - intros [[Ht|Hs] Hstatus]; (split; [|done]).
    + left. by eapply occurs_in_trans.
    + right. by eapply occurs_in_trans.
  - intros [Hsearch _]. split; [done|by left].
Qed.

Lemma filteredAssignments_narrows_witness :
  occurs_in (ascii_toLowerCase "Bio") (ascii_toLowerCase "BIOLOGY")
  ∧ sublist
      (filteredAssignments ascii_toLowerCase MOCK_ASSIGNMENTS "BIOLOGY" "Draft")
      (filteredAssignments ascii_toLowerCase MOCK_ASSIGNMENTS "Bio" "Draft").
Proof.
  assert (occurs_in (ascii_toLowerCase "Bio") (ascii_toLowerCase "BIOLOGY"))
    as Hoccurs by (by exists "", "logy").
  split; [exact Hoccurs|].
  apply (filteredAssignments_narrows ascii_toLowerCase MOCK_ASSIGNMENTS
           "Bio" "BIOLOGY" "Draft" Hoccurs).
Defined.

Lemma filter_length_sum3 {A} (f g1 g2 g3 : A → bool) (l : list A) :
  (∀ a, Nat.b2n (f a)
        = (Nat.b2n (g1 a) + Nat.b2n (g2 a) + Nat.b2n (g3 a))%nat) →
  length (List.filter f l)
  = (length (List.filter g1 l) + length (List.filter g2 l)
     + length (List.filter g3 l))%nat.
Proof.
  intros Hsum. induction l as [|a l IH]; [done|].
  cbn [List.filter]. specialize (Hsum a).
  destruct (f a), (g1 a), (g2 a), (g3 a); simpl in *; lia.
Qed.

(** The status selection is compared exactly: a selection other than
    "All" and the three status names lists nothing, whatever the search
    text; and under "All" every row belongs to exactly one of the three
    status views, so the sizes add up. *)
Theorem filteredAssignments_by_status
    (toLowerCase : string → string) (assignments : list Assignment)
    (searchTerm statusFilter : string) :
  (statusFilter ∉ ["All"; "Draft"; "Published"; "Archived"] →
     filteredAssignments toLowerCase assignments searchTerm statusFilter = [])
  ∧ length (filteredAssignments toLowerCase assignments searchTerm "All")
    = (length (filteredAssignments toLowerCase assignments searchTerm "Draft")
       + length (filteredAssignments toLowerCase assignments searchTerm
                   "Published")
       + length (filteredAssignments toLowerCase assignments searchTerm
                   "Archived"))%nat.
Proof.
  split.
  - intros Hother. unfold filteredAssignments.
    induction assignments as [|a rest IH]; [done|].
    cbn [List.filter]. rewrite IH.
    assert (matchesStatus statusFilter a = false) as ->.
    { apply not_true_iff_false. rewrite matchesStatus_spec.
      intros [->|Heq].
      - apply Hother. set_solver.
      - apply Hother. rewrite <- Heq.
        destruct (a_status a); simpl; set_solver. }
    by rewrite andb_false_r.
  - unfold filteredAssignments. apply filter_length_sum3.
    intros a. unfold matchesStatus.
    destruct (matchesSearch toLowerCase searchTerm a); [|done].
    by destruct (a_status a).
Qed.

Lemma filteredAssignments_by_status_witness :
  filteredAssignments ascii_toLowerCase MOCK_ASSIGNMENTS "" "draft" = [].
Proof.
  apply (proj1 (filteredAssignments_by_status ascii_toLowerCase
                  MOCK_ASSIGNMENTS "" "draft")).
  apply (bool_decide_unpack _). vm_compute. exact I.
Defined.

(** ** Auditing an assignment *)

Section audit_facts.
Variable site_backend : SiteBackend.

Lemma analyzeAssignment_run (assignment : Assignment) (s : Site) :
  let sent := noted (SvHttp (PostAnalyze (a_id assignment))) s in
  analyzeAssignment site_backend assignment s =
    match analyze_endpoint site_backend sent (a_id assignment) with
    | Return text => (Return text, sent)
    | Throw e =>
        (Return audit_fallback, logged (EvConsoleError "Audit Error:" e) sent)
    end.
Proof.
  unfold analyzeAssignment, try_catch, bind, request, bind, note, modify.
  simpl. by destruct (analyze_endpoint site_backend _ _).
Qed.

Lemma analyzeAssignment_settled_run (response : Outcome string) (s : Site) :
  analyzeAssignment_settled response s =
    match response with
    | Return text => (Return text, s)
    | Throw e =>
        (Return audit_fallback, logged (EvConsoleError "Audit Error:" e) s)
    end.
Proof. by destruct response. Qed.

(** The two halves, run back to back with the backend's answer in
    between, are [handleAnalyze]. *)
Lemma handleAnalyze_split
    (assignment : Assignment) (x : AssignmentsList.State * Site) :
  AssignmentsList.handleAnalyze site_backend assignment x =
    (AssignmentsList.handleAnalyze_begin assignment;;
     (λ x', AssignmentsList.handleAnalyze_resume assignment
              (analyze_endpoint site_backend x'.2 (a_id assignment)) x')) x.
Proof.
  destruct x as [st s].
  unfold AssignmentsList.handleAnalyze, AssignmentsList.handleAnalyze_begin,
    AssignmentsList.handleAnalyze_resume, try_finally, try_catch, bind, liftS.
  simpl. rewrite analyzeAssignment_run, analyzeAssignment_settled_run. simpl.
  by destruct (analyze_endpoint site_backend _ _).
Qed.

End audit_facts.

(** [analyzeAssignment] never throws and sends exactly one request: when
    the request resolves it returns the audit text, when it fails, whatever
    the error, it logs the error and returns the fixed fallback text.
    Browser storage is not touched. *)
Theorem analyzeAssignment_degrades
    (site_backend : SiteBackend) (assignment : Assignment) (s : Site) :
  let sent := noted (SvHttp (PostAnalyze (a_id assignment))) s in
  let response := analyze_endpoint site_backend sent (a_id assignment) in
  ∃ s',
    analyzeAssignment site_backend assignment s
      = (Return (audit_text response), s')
    ∧ journal s' = journal s ++ [SvHttp (PostAnalyze (a_id assignment))]
    ∧ localStorage (world s') = localStorage (world s)
    ∧ (∀ text, response = Return text → s' = sent)
    ∧ (∀ e, response = Throw e →
         audit_text response = "Could not perform audit at this time."
         ∧ s' = logged (EvConsoleError "Audit Error:" e) sent).
Proof.
  simpl. rewrite analyzeAssignment_run. simpl.
  destruct (analyze_endpoint site_backend _ _) as [text|e]; eexists;
    (split; [reflexivity|]); (split; [done|]); (split; [done|]); split;
    try done.
  intros e' [= <-]. by split.
Qed.

(** [handleAnalyze] always ends with the spinner cleared and with a result
    for the audited assignment, the backend's text or the fallback; its
    own [catch] never runs, since the site is left exactly as
    [analyzeAssignment] left it. The collection and the filters are not
    touched, and the audit panel is rendered under the rows with the
    audited identifier and under no other. *)
Theorem handleAnalyze_always_reports
    (site_backend : SiteBackend) (assignment : Assignment)
    (st : AssignmentsList.State) (s : Site) :
  ∃ text s',
    analyzeAssignment site_backend assignment s = (Return text, s')
    ∧ AssignmentsList.handleAnalyze site_backend assignment (st, s) =
        (Return (),
         ({| AssignmentsList.assignments := AssignmentsList.assignments st;
             AssignmentsList.searchTerm := AssignmentsList.searchTerm st;
             AssignmentsList.statusFilter := AssignmentsList.statusFilter st;
             AssignmentsList.analyzingId := None;
             AssignmentsList.analysisResult := Some (a_id assignment, text) |},
          s'))
    ∧ ∀ row,
        AssignmentsList.panelShown
          (AssignmentsList.handleAnalyze site_backend assignment (st, s)).2.1
          row = bool_decide (a_id assignment = a_id row).
Proof.
  unfold AssignmentsList.handleAnalyze, try_finally, try_catch, bind, liftS.
  simpl. rewrite analyzeAssignment_run. simpl.
  destruct (analyze_endpoint site_backend _ _) as [text|e];
    do 2 eexists; (split; [reflexivity|]); by split.
Qed.

(** Two audits in flight. Once the second audit has begun, the spinner is
    on its row alone. When the first audit completes, its result is shown
    and the spinner is cleared although the second is still pending; when
    the second completes, its result replaces the first. Whichever
    completes last is the one on display. *)
Theorem overlapping_audits
    (first second : Assignment) (r1 r2 : Outcome string)
    (st : AssignmentsList.State) (s : Site) :
  let begun :=
    (AssignmentsList.handleAnalyze_begin second
       (AssignmentsList.handleAnalyze_begin first (st, s)).2).2 in
  let first_done := (AssignmentsList.handleAnalyze_resume first r1 begun).2 in
  let both_done :=
    (AssignmentsList.handleAnalyze_resume second r2 first_done).2 in
  let swapped :=
    (AssignmentsList.handleAnalyze_resume first r1
       (AssignmentsList.handleAnalyze_resume second r2 begun).2).2 in
  AssignmentsList.analyzingId begun.1 = Some (a_id second)
  ∧ AssignmentsList.analysisResult begun.1 = None
  ∧ journal begun.2 = journal s ++
      [SvHttp (PostAnalyze (a_id first)); SvHttp (PostAnalyze (a_id second))]
  ∧ AssignmentsList.analyzingId first_done.1 = None
  ∧ AssignmentsList.analysisResult first_done.1
      = Some (a_id first, audit_text r1)
  ∧ AssignmentsList.analyzingId both_done.1 = None
  ∧ AssignmentsList.analysisResult both_done.1
      = Some (a_id second, audit_text r2)
  ∧ AssignmentsList.analysisResult swapped.1
      = Some (a_id first, audit_text r1)
  ∧ AssignmentsList.assignments both_done.1 = AssignmentsList.assignments st.
Proof.
  simpl. destruct r1, r2; simpl; repeat split; by rewrite <- app_assoc.
Qed.

(** ** Logging in and out *)

Section auth_facts.
Variable site_backend : SiteBackend.
Variable JSON_stringify : JsValue → string.

(** What [login] does, by the way its two requests settle. *)
Lemma login_run (email password : string) (s : Site) :
  let asked := noted (SvHttp (PostToken email password)) s in
  login site_backend JSON_stringify email password s =
    match token_endpoint site_backend asked email password with
    | Throw e => (Throw e, asked)
    | Return access_token =>
        let keyed :=
          noted (SvHttp (GetUsersMe ("Bearer " +:+ access_token)))
            (on_world (with_item "token" access_token) asked) in
        match me_endpoint site_backend keyed ("Bearer " +:+ access_token) with
        | Throw e => (Throw e, keyed)
        | Return userRes =>
            (Return (),
             on_world (with_item "user" (JSON_stringify userRes)) keyed)
        end
    end.
Proof.
  unfold login, bind, request, bind, note, modify, inWorld,
    localStorage_setItem, modify.
  simpl. destruct (token_endpoint site_backend _ _ _) as [token|e]; [|done].
  simpl. by destruct (me_endpoint site_backend _ _).
Qed.

Lemma logout_run (s : Site) :
  logout s =
    (Return (),
     noted (SvNavigate "/login")
       (on_world (without_item "user")
          (on_world (without_item "token") s))).
Proof. reflexivity. Qed.

End auth_facts.

(** A successful [login] followed by [getCurrentUser] gives back the user
    record the backend sent, provided [JSON.parse] undoes
    [JSON.stringify] on that record and its stored form is not empty. The
    token is stored under [token], exactly two requests are sent, the
    second bearing the token, and every other storage key keeps its
    value. *)
Theorem login_then_getCurrentUser
    (site_backend : SiteBackend) (JSON_stringify : JsValue → string)
    (JSON_parse : string → Outcome JsValue)
    (email password : string) (s : Site)
    (access_token : string) (user : JsValue) :
  let asked := noted (SvHttp (PostToken email password)) s in
  let keyed :=
    noted (SvHttp (GetUsersMe ("Bearer " +:+ access_token)))
      (on_world (with_item "token" access_token) asked) in
  token_endpoint site_backend asked email password = Return access_token →
  me_endpoint site_backend keyed ("Bearer " +:+ access_token) = Return user →
  JSON_parse (JSON_stringify user) = Return user →
  JSON_stringify user ≠ "" →
  ∃ s',
    login site_backend JSON_stringify email password s = (Return (), s')
    ∧ getCurrentUser JSON_parse (world s') = (Return user, world s')
    ∧ localStorage (world s') !! "token" = Some access_token
    ∧ journal s' = journal s ++
        [SvHttp (PostToken email password);
         SvHttp (GetUsersMe ("Bearer " +:+ access_token))]
    ∧ trace (world s') = trace (world s)
    ∧ ∀ key, key ≠ "token" → key ≠ "user" →
        localStorage (world s') !! key = localStorage (world s) !! key.
Proof.
  intros asked keyed Htoken Hme Hparse Hnonempty. subst asked keyed.
  eexists.
  split; [rewrite login_run; cbv zeta; rewrite Htoken; cbv beta iota zeta;
          by rewrite Hme|].
  simpl. split.
  { rewrite (getCurrentUser_present _ _ (JSON_stringify user)); simpl.
    - by rewrite Hparse.
    - by rewrite lookup_insert_eq.
    - done. }
  split.
  { rewrite lookup_insert_ne by done. by rewrite lookup_insert_eq. }
  split; [by rewrite <- app_assoc|]. split; [done|].
  intros key Htok Huser. by rewrite !lookup_insert_ne.
Qed.

Lemma login_then_getCurrentUser_witness :
  ∃ s',
    login campus toy_JSON_stringify "ada@campus.edu" "secret" fresh_site
      = (Return (), s')
    ∧ getCurrentUser toy_JSON_parse (world s')
      = (Return (JObj [("id", JNum 7)]), world s').
Proof.
  destruct (login_then_getCurrentUser campus toy_JSON_stringify
              toy_JSON_parse "ada@campus.edu" "secret" fresh_site "t0k3n"
              (JObj [("id", JNum 7)]))
    as (s' & Hlogin & Huser & _); try reflexivity.
  - discriminate.
  - by exists s'.
Defined.

(** When the token request fails, [login] fails with the same error after
    that one request: nothing is stored, so the session store answers as
    before. *)
Theorem login_rejected
    (site_backend : SiteBackend) (JSON_stringify : JsValue → string)
    (JSON_parse : string → Outcome JsValue)
    (email password : string) (s : Site) (e : JsError) :
  let asked := noted (SvHttp (PostToken email password)) s in
  token_endpoint site_backend asked email password = Throw e →
  login site_backend JSON_stringify email password s = (Throw e, asked)
  ∧ localStorage (world asked) = localStorage (world s)
  ∧ (getCurrentUser JSON_parse (world asked)).1
    = (getCurrentUser JSON_parse (world s)).1.
Proof.
  intros asked Htoken. subst asked. rewrite login_run. cbv zeta.
  by rewrite Htoken.
Qed.

Lemma login_rejected_witness :
  (login campus toy_JSON_stringify "ada@campus.edu" "guess" fresh_site).1
    = Throw (HttpError 401).
Proof.
  by rewrite (proj1 (login_rejected campus toy_JSON_stringify toy_JSON_parse
                       "ada@campus.edu" "guess" fresh_site (HttpError 401)
                       eq_refl)).
Defined.

(** When the token request succeeds but the profile request fails,
    [login] fails with that error having already stored the new token:
    the entry under [user] is whatever it was, so the session store still
    answers with the previous user, if any. *)
Theorem login_half_done
    (site_backend : SiteBackend) (JSON_stringify : JsValue → string)
    (JSON_parse : string → Outcome JsValue)
    (email password : string) (s : Site)
    (access_token : string) (e : JsError) :
  let asked := noted (SvHttp (PostToken email password)) s in
  let keyed :=
    noted (SvHttp (GetUsersMe ("Bearer " +:+ access_token)))
      (on_world (with_item "token" access_token) asked) in
  token_endpoint site_backend asked email password = Return access_token →
  me_endpoint site_backend keyed ("Bearer " +:+ access_token) = Throw e →
  login site_backend JSON_stringify email password s = (Throw e, keyed)
  ∧ localStorage (world keyed) !! "token" = Some access_token
  ∧ localStorage (world keyed) !! "user" = localStorage (world s) !! "user"
  ∧ (getCurrentUser JSON_parse (world keyed)).1
    = (getCurrentUser JSON_parse (world s)).1.
Proof.
  intros asked keyed Htoken Hme. subst asked keyed.
  split; [rewrite login_run; cbv zeta; rewrite Htoken; cbv beta iota zeta;
          by rewrite Hme|].
  simpl. split; [by rewrite lookup_insert_eq|].
  assert (<["token":=access_token]> (localStorage (world s)) !! "user"
          = localStorage (world s) !! "user") as Hsame
    by (by rewrite lookup_insert_ne).
  split; [done|].
  unfold getCurrentUser, bind, localStorage_getItem. simpl. rewrite Hsame.
  destruct (localStorage (world s) !! "user") as [u|]; [|done].
  by destruct (negb (bool_decide (u = ""))).
Qed.

Lemma login_half_done_witness :
  ∃ s',
    login campus_without_profiles toy_JSON_stringify "ada@campus.edu" "secret"
      fresh_site = (Throw (HttpError 503), s')
    ∧ localStorage (world s') !! "token" = Some "t0k3n"
    ∧ localStorage (world s') !! "user" = None.
Proof.
  destruct (login_half_done campus_without_profiles toy_JSON_stringify
              toy_JSON_parse "ada@campus.edu" "secret" fresh_site "t0k3n"
              (HttpError 503) eq_refl eq_refl)
    as (Hlogin & Htoken & Huser & _).
  eexists. split; [exact Hlogin|]. split; [exact Htoken|exact Huser].
Defined.

(** [logout] removes the token and the user record, whatever was stored,
    keeps every other key, logs nothing and navigates to [/login].
    Afterwards the session store answers [null], and a submission in the
    portal is stopped at the login guard without any request. *)
Theorem logout_ends_session
    (backend : Backend) (JSON_parse : string → Outcome JsValue)
    (s : Site) (st : PortalState) :
  ∃ s',
    logout s = (Return (), s')
    ∧ localStorage (world s') !! "token" = None
    ∧ localStorage (world s') !! "user" = None
    ∧ (∀ key, key ≠ "token" → key ≠ "user" →
         localStorage (world s') !! key = localStorage (world s) !! key)
    ∧ trace (world s') = trace (world s)
    ∧ journal s' = journal s ++ [SvNavigate "/login"]
    ∧ getCurrentUser JSON_parse (world s') = (Return JNull, world s')
    ∧ fire (handleSubmit backend JSON_parse) (st, world s')
      = (Return (), (st, record (EvAlert "Please login first") (world s'))).
Proof.
  eexists. split; [apply logout_run|]. simpl.
  assert (delete "user" (delete "token" (localStorage (world s))) !! "user"
          = None) as Huser by apply lookup_delete_eq.
  split.
  { rewrite lookup_delete_ne by done. apply lookup_delete_eq. }
  split; [done|]. split.
  { intros key Htok Hus. by rewrite !lookup_delete_ne. }
  split; [done|]. split; [done|]. split.
  - by apply getCurrentUser_absent.
  - apply (submit_blocked backend JSON_parse st _ JNull); [|done].
    by apply getCurrentUser_absent.
Qed.

(** ** Generating questions *)

(** Every call of [generateContent] sends exactly one request and touches
    neither storage nor the alerts. *)
Lemma generateContent_one_request (backend : Backend) (topic : string)
    (type : AssignmentType) (difficulty : Difficulty) (w : World) :
  ∃ questions w',
    generateContent backend topic type difficulty w = (Return questions, w')
    ∧ List.filter is_http (trace w')
      = List.filter is_http (trace w)
        ++ [EvHttp (PostGenerate topic type difficulty)]
    ∧ List.filter is_alert (trace w') = List.filter is_alert (trace w)
    ∧ localStorage w' = localStorage w
    ∧ (∀ e, generate_endpoint backend
              (trace w ++ [EvHttp (PostGenerate topic type difficulty)])
              topic type difficulty = Throw e → questions = []).
Proof.
  unfold generateContent, try_catch, bind, axios, bind, emit, modify,
    console_error, emit, modify.
  simpl.
  destruct (generate_endpoint backend _ _ _ _) as [qs|e]; do 2 eexists;
    (split; [reflexivity|]); simpl; rewrite ?List.filter_app; simpl;
    rewrite ?app_nil_r; repeat split; try done.
Qed.

(** [handleGenerate] of the creator. With a topic that is blank once
    trimmed it does nothing at all. Otherwise it sends one generation
    request with the topic as typed, and ends with the loading flag off,
    [hasGenerated] on and the preview replaced by what [generateContent]
    returned, which is the empty list when the request failed: a failure
    shows as an empty preview, without an alert. *)
Theorem handleGenerate_outcome
    (backend : Backend) (trim : string → string)
    (st : AssignmentCreator.State) (w : World) :
  (trim (AssignmentCreator.topic st) = "" →
     AssignmentCreator.handleGenerate backend trim st (st, w)
       = (Return (), (st, w)))
  ∧ (trim (AssignmentCreator.topic st) ≠ "" →
     ∃ questions w',
       generateContent backend (AssignmentCreator.topic st)
         (AssignmentCreator.type st) (AssignmentCreator.difficulty st) w
         = (Return questions, w')
       ∧ AssignmentCreator.handleGenerate backend trim st (st, w) =
           (Return (),
            ({| AssignmentCreator.topic := AssignmentCreator.topic st;
                AssignmentCreator.type := AssignmentCreator.type st;
                AssignmentCreator.difficulty := AssignmentCreator.difficulty st;
                AssignmentCreator.loading := false;
                AssignmentCreator.generatedQuestions := questions;
                AssignmentCreator.hasGenerated := true |}, w'))
       ∧ List.filter is_http (trace w')
         = List.filter is_http (trace w)
           ++ [EvHttp (PostGenerate (AssignmentCreator.topic st)
                         (AssignmentCreator.type st)
                         (AssignmentCreator.difficulty st))]
       ∧ List.filter is_alert (trace w') = List.filter is_alert (trace w)
       ∧ (∀ e, generate_endpoint backend
                 (trace w ++
                    [EvHttp (PostGenerate (AssignmentCreator.topic st)
                               (AssignmentCreator.type st)
                               (AssignmentCreator.difficulty st))])
                 (AssignmentCreator.topic st) (AssignmentCreator.type st)
                 (AssignmentCreator.difficulty st) = Throw e →
               questions = [])).
Proof.
  split.
  - intros Hblank. unfold AssignmentCreator.handleGenerate.
    by rewrite bool_decide_eq_true_2.
  - intros Htopic.
    destruct (generateContent_one_request backend (AssignmentCreator.topic st)
                (AssignmentCreator.type st) (AssignmentCreator.difficulty st) w)
      as (questions & w' & Hrun & Hhttp & Halert & _ & Hfail).
    exists questions, w'. split; [done|]. split; [|done].
    unfold AssignmentCreator.handleGenerate.
    rewrite bool_decide_eq_false_2 by done.
    unfold bind, liftW, AssignmentCreator.setLoading,
      AssignmentCreator.setHasGenerated, modify.
    simpl. by rewrite Hrun.
Qed.

Lemma handleGenerate_outcome_witness :
  AssignmentCreator.handleGenerate offline_backend no_trim
      AssignmentCreator.initial (AssignmentCreator.initial, fresh_world)
    = (Return (), (AssignmentCreator.initial, fresh_world))
  ∧ ∃ questions w',
      AssignmentCreator.handleGenerate offline_backend no_trim creator_ready
          (creator_ready, fresh_world)
        = (Return (),
           ({| AssignmentCreator.topic := "Photosynthesis";
               AssignmentCreator.type := MCQ;
               AssignmentCreator.difficulty := MEDIUM;
               AssignmentCreator.loading := false;
               AssignmentCreator.generatedQuestions := questions;
               AssignmentCreator.hasGenerated := true |}, w'))
      ∧ questions = [].
Proof.
  split.
  - apply (proj1 (handleGenerate_outcome offline_backend no_trim
                    AssignmentCreator.initial fresh_world)).
    reflexivity.
  - destruct (proj2 (handleGenerate_outcome offline_backend no_trim
                       creator_ready fresh_world))
      as (questions & w' & _ & Hrun & _ & _ & Hfail).
    + simpl. discriminate.
    + exists questions, w'. split; [exact Hrun|].
      apply (Hfail NetworkError). reflexivity.
Defined.

(** ** The student portal as a whole *)

Lemma js_get_prop {S} (v : JsValue) (k : string) (s : S) :
  js_truthy v = true → js_get v k s = (Return (js_prop v k), s).
Proof. by destruct v. Qed.


(** Reading back what [CreateDataProperty] wrote. *)
Lemma obj_get_define (k v : string) (o : JsObject) (k' : string) :
  obj_get (obj_define k v o) k' =
    if decide (k = k') then Some v else obj_get o k'.
Proof.
  unfold obj_define. destruct (obj_has o k) eqn:Hhas.
  - rewrite obj_get_update. case_decide as Hk; [|done]. subst k'.
    apply obj_has_true in Hhas.
    destruct (obj_get o k) eqn:Hget; [done|].
    by apply obj_get_None in Hget.
  - apply obj_has_false in Hhas. by apply obj_get_place.
Qed.

Section portal_facts.
Variable backend : Backend.
Variable JSON_parse : string → Outcome JsValue.
Variable trim : string → string.
Variable getAssignment : string → M World Assignment.





End portal_facts.


(** Editing an answer and reading it back: after the input of a rendered
    question is changed to [value], the Answer Map holds [value] under
    that question's identifier and the entries under all other
    identifiers are as before; nothing else in the portal or the world
    changes, and no key is added when the identifier was a key already. *)
Theorem edit_then_read
    (st : PortalState) (w : World) (data : Assignment) (index : nat)
    (q : Question) (value : string) :
  step st = 2 →
  assignmentData st = Some data →
  a_questions data !! index = Some q →
  obj_wf (answers st) →
  let after := (fire (λ view, onAnswerInput view index value) (st, w)).2 in
  obj_get (answers after.1) (q_id q) = Some value
  ∧ (∀ k, k ≠ q_id q → obj_get (answers after.1) k = obj_get (answers st) k)
  ∧ (q_id q ∈ obj_keys (answers st) →
       obj_keys (answers after.1) = obj_keys (answers st))
  ∧ after.1 =
      {| step := step st; assignmentId := assignmentId st;
         assignmentData := assignmentData st; answers := answers after.1;
         feedback := feedback st; loading := loading st |}
  ∧ after.2 = w.
Proof.
  intros Hstep Hdata Hq Hwf after. subst after.
  unfold fire, onAnswerInput. cbn [fst snd].
  rewrite bool_decide_eq_true_2 by done. rewrite Hdata, Hq.
  rewrite handleAnswerChange_run. cbn [fst snd]. simpl.
  rewrite obj_spread_id by done.
  split; [by rewrite obj_get_define, decide_True|].
  split; [intros k Hk; by rewrite obj_get_define, decide_False|].
  split; [|by rewrite Hdata].
  intros Hin. unfold obj_define.
  rewrite (proj2 (obj_has_true _ _) Hin). apply obj_keys_update.
Qed.

Lemma edit_then_read_witness :
  obj_get
    (answers (fire (λ view, onAnswerInput view 1 "A lipid bilayer")
                essay_open).2.1) "q2" = Some "A lipid bilayer"
  ∧ obj_get
      (answers (fire (λ view, onAnswerInput view 1 "A lipid bilayer")
                  essay_open).2.1) "q1" = Some "".
Proof.
  destruct (edit_then_read essay_open.1 essay_open.2 essay 1
              (mkQuestion "q2" "What is a membrane?") "A lipid bilayer")
    as (Hread & Hothers & _); try reflexivity.
  - apply seedAnswers_wf.
  - split; [exact Hread|].
    change (fire (λ view, onAnswerInput view 1 "A lipid bilayer") essay_open)
      with (fire (λ view, onAnswerInput view 1 "A lipid bilayer")
              (essay_open.1, essay_open.2)).
    rewrite (Hothers "q1"); [reflexivity|discriminate].
Defined.

(** Submitting as a logged-in user: when the stored user record parses to
    a truthy value, [handleSubmit] sends exactly one grading request,
    carrying the assignment identifier, the [id] of the user record and
    the flattened Answer Map; it ends with the loading flag off and a
    feedback held, the backend's or, when the request failed, the
    sentinel; it raises no alert either way, so its own [catch] never
    runs; and it changes nothing else in the state. *)
Theorem submit_grades_once
    (backend : Backend) (JSON_parse : string → Outcome JsValue)
    (st : PortalState) (w : World) (stored : string) (user : JsValue) :
  localStorage w !! "user" = Some stored →
  stored ≠ "" →
  JSON_parse stored = Return user →
  js_truthy user = true →
  let sent :=
    record (EvHttp (PostGrade (assignmentId st) (js_prop user "id")
                      (formattedSubmission (answers st)))) w in
  let response :=
    grade_endpoint backend (trace sent) (assignmentId st) (js_prop user "id")
      (formattedSubmission (answers st)) in
  ∃ result w',
    fire (handleSubmit backend JSON_parse) (st, w) =
      (Return (),
       ({| step := step st; assignmentId := assignmentId st;
           assignmentData := assignmentData st; answers := answers st;
           feedback := Some result; loading := false |}, w'))
    ∧ (∀ fb, response = Return fb → result = fb ∧ w' = sent)
    ∧ (∀ e, response = Throw e →
         result = grading_fallback
         ∧ w' = record (EvConsoleError "Grading Error:" e) sent)
    ∧ List.filter is_http (trace w') =
        List.filter is_http (trace w) ++
        [EvHttp (PostGrade (assignmentId st) (js_prop user "id")
                   (formattedSubmission (answers st)))]
    ∧ List.filter is_alert (trace w') = List.filter is_alert (trace w).
Proof.
  intros Hstored Hnonempty Hparse Htruthy sent response.
  subst sent response.
  unfold fire, handleSubmit, bind, liftW. cbn [fst snd].
  rewrite (getCurrentUser_present JSON_parse w stored Hstored Hnonempty).
  rewrite Hparse, Htruthy. cbn [negb].
  unfold try_finally, try_catch, bind, setLoading, setFeedback, modify.
  rewrite js_get_prop by done.
  unfold autoGradeSubmission, try_catch, bind, axios, bind, emit, modify,
    console_error, emit, modify, ret.
  simpl.
  destruct (grade_endpoint backend _ _ _ _) as [fb|e]; do 2 eexists;
    (split; [reflexivity|]); simpl; rewrite ?List.filter_app; simpl;
    rewrite ?app_nil_r.
  - split; [by intros ? [= <-]|]. by split.
  - split; [done|]. split; [by intros ? [= <-]|]. done.
Qed.

Lemma submit_grades_once_witness :
  ∃ result w',
    fire (handleSubmit offline_backend toy_JSON_parse) essay_open =
      (Return (),
       ({| step := 2; assignmentId := "X"; assignmentData := Some essay;
           answers := [("q1", ""); ("q2", "")];
           feedback := Some result; loading := false |}, w'))
    ∧ result = grading_fallback.
Proof.
  destruct (submit_grades_once offline_backend toy_JSON_parse essay_open.1
              essay_open.2 stored_user (JObj [("id", JNum 7)]))
    as (result & w' & Hrun & _ & Hfail & _); try reflexivity.
  - discriminate.
  - exists result, w'. split; [exact Hrun|].
    by destruct (Hfail (HttpError 503) eq_refl).
Defined.

(** Submitting with a stored user record that [JSON.parse] rejects: the
    error of [JSON.parse] escapes from [handleSubmit], which has by then
    done nothing: no alert, no request, no change of state. *)
Theorem submit_with_garbled_session
    (backend : Backend) (JSON_parse : string → Outcome JsValue)
    (st : PortalState) (w : World) (stored : string) (e : JsError) :
  localStorage w !! "user" = Some stored →
  stored ≠ "" →
  JSON_parse stored = Throw e →
  fire (handleSubmit backend JSON_parse) (st, w) = (Throw e, (st, w)).
Proof.
  intros Hstored Hnonempty Hparse.
  unfold fire, handleSubmit, bind, liftW. cbn [fst snd].
  rewrite (getCurrentUser_present JSON_parse w stored Hstored Hnonempty).
  by rewrite Hparse.
Qed.

Lemma submit_with_garbled_session_witness :
  fire (handleSubmit offline_backend toy_JSON_parse)
       (typed "X", garbled_world)
    = (Throw SyntaxError, (typed "X", garbled_world)).
Proof.
  apply (submit_with_garbled_session offline_backend toy_JSON_parse
           (typed "X") garbled_world "{id:" SyntaxError);
    [reflexivity|discriminate|reflexivity].
Defined.

(** ** Numbering of the submission *)

Lemma key_before_not_index (k k' : string) :
  array_index k = None → key_before k k' = false.
Proof. unfold key_before. by intros ->. Qed.

(** With identifiers that are pairwise distinct, none an array index and
    none [__proto__], the Answer Map enumerates its keys in the order of
    the questions. *)
Lemma seedAnswers_in_order (qs : list Question) :
  NoDup (q_id <$> qs) →
  proto_key ∉ q_id <$> qs →
  (∀ k, k ∈ q_id <$> qs → array_index k = None) →
  obj_keys (seedAnswers qs) = q_id <$> qs.
Proof.
  induction qs as [|q qs IH] using rev_ind; [done|].
  rewrite fmap_app. simpl. intros Hnd Hp Hidx.
  apply NoDup_app in Hnd as (Hnd & Hfresh & _).
  rewrite not_elem_of_app, list_elem_of_singleton in Hp.
  destruct Hp as [Hp1 Hp2].
  rewrite seedAnswers_snoc. unfold obj_assign.
  assert (q_id q ∉ obj_keys (seedAnswers qs)) as Hnew.
  { rewrite seedAnswers_keys. intros [Hin _].
    apply (Hfresh _ Hin). by apply list_elem_of_singleton. }
  rewrite (proj2 (obj_has_false _ _) Hnew).
  rewrite decide_False by congruence.
  rewrite obj_place_snoc.
  - unfold obj_keys in *. rewrite fmap_app. simpl. f_equal. apply IH; [done..|].
    intros k Hk. apply Hidx. apply elem_of_app. by left.
  - apply Forall_forall. intros k' _. apply key_before_not_index.
    apply Hidx. apply elem_of_app. right. by apply list_elem_of_singleton.
Qed.

Lemma obj_get_lookup (o : JsObject) (i : nat) (k v : string) :
  NoDup (obj_keys o) → o !! i = Some (k, v) → obj_get o k = Some v.
Proof.
  revert i. induction o as [|[k' v'] r IH]; intros i Hnd Hi; [done|].
  simpl in Hnd. apply NoDup_cons in Hnd as [Hk' Hnd]. simpl.
  destruct i as [|i]; simpl in Hi.
  - injection Hi as -> ->. by rewrite decide_True.
  - case_decide as Heq; [|by eapply IH].
    subst k'. exfalso. apply Hk'.
    apply list_elem_of_fmap. exists (k, v). split; [done|].
    by eapply list_elem_of_lookup_2.
Qed.

(** The page numbers the questions by position, the submission numbers
    the entries of the Answer Map. When the question identifiers are
    pairwise distinct, none of them an array index and none [__proto__],
    the two agree after loading and any sequence of edits: line [i] of the
    submission is [Q<i+1>:] followed by the current answer to the question
    at position [i]. *)
Theorem submission_in_question_order
    (trim : string → string) (getAssignment : string → M World Assignment)
    (st : PortalState) (w : World) (data : Assignment) (w' : World)
    (edits : list (nat * string)) :
  assignmentId st ≠ "" →
  getAssignment (trim (assignmentId st)) w = (Return data, w') →
  NoDup (q_id <$> a_questions data) →
  proto_key ∉ q_id <$> a_questions data →
  (∀ k, k ∈ q_id <$> a_questions data → array_index k = None) →
  let final :=
    (editAnswers edits
       (fire (handleLoadAssignment trim getAssignment) (st, w)).2).1 in
  obj_keys (answers final) = q_id <$> a_questions data
  ∧ formattedSubmission (answers final)
    = join_blank_lines (numbered_lines 1 (obj_entries (answers final)).*2)
  ∧ ∀ i q, a_questions data !! i = Some q →
      ∃ ans,
        obj_get (answers final) (q_id q) = Some ans
        ∧ numbered_lines 1 (obj_entries (answers final)).*2 !! i
          = Some ("Q" +:+ pretty (i + 1)%nat +:+ ": " +:+ ans).
Proof.
  intros Hid Hget Hnd Hproto Hidx final. subst final.
  rewrite (load_success _ _ _ _ data w') by done. cbn [snd].
  match goal with |- context [editAnswers edits (?s, w')] =>
    destruct (editAnswers_preserves_keys data edits s w')
      as (Hkeys & _) end.
  { done. }
  { apply seedAnswers_wf. }
  { intros q Hq. simpl. apply seedAnswers_keys. split.
    - apply list_elem_of_fmap. by exists q.
    - intros Heq. apply Hproto. rewrite <- Heq.
      apply list_elem_of_fmap. by exists q. }
  simpl in Hkeys. rewrite seedAnswers_in_order in Hkeys by done.
  split; [exact Hkeys|]. split.
  { unfold formattedSubmission.
    by rewrite concat_join_blank_lines, imap_numbered_lines. }
  intros i q Hq. unfold obj_entries.
  match goal with |- context [answers ?x] => set (final := answers x) in * end.
  assert (obj_keys final !! i = Some (q_id q)) as Hki.
  { by rewrite Hkeys, list_lookup_fmap, Hq. }
  unfold obj_keys in Hki. rewrite list_lookup_fmap in Hki.
  destruct (final !! i) as [[k ans]|] eqn:Hentry; [|done].
  simpl in Hki. injection Hki as ->.
  exists ans. split.
  - eapply obj_get_lookup; [|done]. rewrite Hkeys. exact Hnd.
  - rewrite (numbered_lines_lookup 1 i _ ans).
    + by replace (1 + i)%nat with (i + 1)%nat by lia.
    + by rewrite list_lookup_fmap, Hentry.
Qed.

Lemma submission_in_question_order_witness :
  obj_keys
    (answers
       (editAnswers [(1%nat, "A lipid bilayer")]
          (fire (handleLoadAssignment no_trim (getAssignment offline_backend))
             (typed "X", fresh_world)).2).1)
    = ["q1"; "q2"].
Proof.
  apply (submission_in_question_order no_trim (getAssignment offline_backend)
           (typed "X") fresh_world essay
           (record (EvHttp (GetAssignment "X")) fresh_world)
           [(1%nat, "A lipid bilayer")]).
  - simpl. discriminate.
  - reflexivity.
  - apply (bool_decide_unpack _). vm_compute. exact I.
  - apply (bool_decide_unpack _). vm_compute. exact I.
  - intros k Hk. simpl in Hk.
    apply elem_of_cons in Hk as [->|Hk]; [reflexivity|].
    apply list_elem_of_singleton in Hk as ->. reflexivity.
Defined.

(** A failed generation cannot be told from an empty one in the creator:
    with a backend whose request fails and one that answers with no
    question, [handleGenerate] leaves the component in the same state. *)
Theorem handleGenerate_failure_looks_empty
    (failing empty : Backend) (trim : string → string)
    (st : AssignmentCreator.State) (w : World) (e : JsError) :
  generate_endpoint failing
    (trace w ++ [EvHttp (PostGenerate (AssignmentCreator.topic st)
                           (AssignmentCreator.type st)
                           (AssignmentCreator.difficulty st))])
    (AssignmentCreator.topic st) (AssignmentCreator.type st)
    (AssignmentCreator.difficulty st) = Throw e →
  generate_endpoint empty
    (trace w ++ [EvHttp (PostGenerate (AssignmentCreator.topic st)
                           (AssignmentCreator.type st)
                           (AssignmentCreator.difficulty st))])
    (AssignmentCreator.topic st) (AssignmentCreator.type st)
    (AssignmentCreator.difficulty st) = Return [] →
  (AssignmentCreator.handleGenerate failing trim st (st, w)).2.1
    = (AssignmentCreator.handleGenerate empty trim st (st, w)).2.1
  ∧ (AssignmentCreator.handleGenerate failing trim st (st, w)).1
    = (AssignmentCreator.handleGenerate empty trim st (st, w)).1.
Proof.
  intros Hfail Hempty. unfold AssignmentCreator.handleGenerate.
  case_bool_decide; [done|].
  unfold bind, liftW, AssignmentCreator.setLoading,
    AssignmentCreator.setHasGenerated, modify.
  simpl.
  unfold generateContent, try_catch, bind, axios, bind, emit, modify,
    console_error, emit, modify.
  simpl. by rewrite Hfail, Hempty.
Qed.

Lemma handleGenerate_failure_looks_empty_witness :
  (AssignmentCreator.handleGenerate offline_backend no_trim creator_ready
     (creator_ready, fresh_world)).2.1
  = (AssignmentCreator.handleGenerate quiet_backend no_trim creator_ready
       (creator_ready, fresh_world)).2.1.
Proof.
  apply (handleGenerate_failure_looks_empty offline_backend quiet_backend
           no_trim creator_ready fresh_world NetworkError);
    reflexivity.
Defined.
